(** * Aeris.js: tile animation timeline, URI serializer, GeoJSON collection

    A shallow embedding of
    - [src/maps/animations/tileanimation.js]  (module [TileAnimation]),
    - [src/api/collections/geojsonfeaturecollection.js] (module [GeoJson]),
    - the serializer exercised by [tests/spec/aeris/aerisapi.js]
      (module [AerisAPI]),
    - the [AnimationSync] coordinator used by the animation-sync example
      page (module [AnimationSync]).

    Conventions.  Timestamps are integer milliseconds ([Z]).  A JavaScript
    object used as a hash keyed by timestamps is a [gmap Z _]; layer
    objects live in a store indexed by [LayerId], so that two references to
    one layer alias.  Methods that mutate [this] or throw are computations
    in the monad [M]; read-only methods are functions of [this].
    [Date.now()] is the parameter [now] of a method: the clock is read as
    constant during one synchronous call. *)

From stdpp Require Import gmap strings list sorting pretty.
From Stdlib Require Import ZArith QArith Lia Ascii.

Local Open Scope Z_scope.

(** ** JavaScript values that reach [goToTime] *)

Module Js.

Inductive Value :=
| VUndefined
| VNull
| VBoolean (b : bool)
| VNumber (n : Z)
| VNaN
| VString (s : string)
| VDate (ms : option Z).   (* [None]: an invalid Date, whose time is NaN *)

(** [_.isDate] *)
Definition isDate (v : Value) : bool :=
  match v with VDate _ => true | _ => false end.

(** [Date.prototype.getTime] *)
Definition getTime (v : Value) : Value :=
  match v with
  | VDate (Some ms) => VNumber ms
  | VDate None => VNaN
  | _ => VUndefined
  end.

(** Modelled from the spec: [_.isNumeric] of aeris/util is not in src.
    The error message of [goToTime] reads "time must be a Date or a
    timestamp (number)": a value is numeric when it is a number. *)
Definition isNumeric (v : Value) : bool :=
  match v with VNumber _ => true | _ => false end.

Definition numberOf (v : Value) : option Z :=
  match v with VNumber n => Some n | _ => None end.

(** [Array.prototype.indexOf]: the first index holding [x], or -1. *)
Fixpoint indexOf_from (i : Z) (x : Z) (l : list Z) : Z :=
  match l with
  | [] => -1
  | y :: l' => if Z.eqb y x then i else indexOf_from (i + 1) x l'
  end.

Definition indexOf (l : list Z) (x : option Z) : Z :=
  match x with
  | Some x => indexOf_from 0 x l
  | None => -1                      (* no array of numbers holds undefined *)
  end.

(** [array[i]]: undefined outside of the array, also for negative [i]. *)
Definition at_index (l : list Z) (i : Z) : option Z :=
  if Z.ltb i 0 then None else l !! Z.to_nat i.

(** JavaScript truthiness of a number-or-undefined. *)
Definition truthy (x : option Z) : bool :=
  match x with
  | Some n => negb (Z.eqb n 0)
  | None => false
  end.

(** [_.sortBy(list, _.identity)] on numbers: a stable ascending sort. *)
Definition sortBy_identity (l : list Z) : list Z := merge_sort Z.le l.

(** Modelled from the spec: aeris/util/findclosest is not in src.  The
    spec calls it the "nearest-timestamp lookup": the number of the array
    nearest to the target, the first such one, undefined for an empty
    array. *)
Fixpoint findClosest_from (target closest : Z) (numbers : list Z) : Z :=
  match numbers with
  | [] => closest
  | n :: rest =>
      if Z.ltb (Z.abs (target - n)) (Z.abs (target - closest))
      then findClosest_from target n rest
      else findClosest_from target closest rest
  end.

Definition findClosest (target : Z) (numbers : list Z) : option Z :=
  match numbers with
  | [] => None
  | n :: rest => Some (findClosest_from target n rest)
  end.

End Js.

(** ** The tile animation *)

Module TileAnimation.
Import Js.

Abbreviation LayerId := positive.
Abbreviation MapId := positive.

Inductive Attr := attr_map | attr_opacity | attr_zIndex.

Definition Attr_eqb (x y : Attr) : bool :=
  match x, y with
  | attr_map, attr_map | attr_opacity, attr_opacity
  | attr_zIndex, attr_zIndex => true
  | _, _ => false
  end.

Definition has_attr (x : Attr) (l : list Attr) : bool := existsb (Attr_eqb x) l.

(** The master layer: the client's handle for all animation frames. *)
Record MasterLayer := mkMaster {
  master_map : option MapId;
  master_opacity : Q;
  master_zIndex : Z;
  master_hasStrategy : bool
}.

(** A frame: an [AerisTile] layer object. *)
Record Layer := mkLayer {
  layer_isLoaded : bool;
  layer_map : option MapId;
  layer_opacity : Q;
  layer_zIndex : Z;
  layer_bound : list Attr;      (* attributes bound to the master layer *)
  layer_destroyed : bool
}.

(** Modelled from the spec: the layer class is not in src.
    [layer.setOpacity(o)] sets the opacity: "opacity is set to 0". *)
Definition layer_setOpacity (o : Q) (L : Layer) : Layer :=
  mkLayer (layer_isLoaded L) (layer_map L) o (layer_zIndex L)
          (layer_bound L) (layer_destroyed L).

(** Modelled from the spec: the layer class is not in src.
    [layer.stopListening(masterLayer)] ends what the layer listens to on
    the master layer: its attribute bindings. *)
Definition layer_stopListening (L : Layer) : Layer :=
  mkLayer (layer_isLoaded L) (layer_map L) (layer_opacity L) (layer_zIndex L)
          [] (layer_destroyed L).

(** Modelled from the spec: the layer class is not in src.
    [layer.bindAttributesTo(master, attrs)] makes the layer "bound to the
    master layer's map, opacity, and zIndex attributes"; by the comment of
    [syncLayerToMaster_] the attributes of the layer are updated to match
    those of the master layer. *)
Definition layer_bindAttributesTo (m : MasterLayer) (attrs : list Attr)
    (L : Layer) : Layer :=
  mkLayer (layer_isLoaded L)
          (if has_attr attr_map attrs then master_map m else layer_map L)
          (if has_attr attr_opacity attrs then master_opacity m else layer_opacity L)
          (if has_attr attr_zIndex attrs then master_zIndex m else layer_zIndex L)
          attrs (layer_destroyed L).

(** [layer.set({opacity: o, map: mp})] *)
Definition layer_set_opacity_map (o : Q) (mp : option MapId) (L : Layer) : Layer :=
  mkLayer (layer_isLoaded L) mp o (layer_zIndex L)
          (layer_bound L) (layer_destroyed L).

Definition layer_destroy (L : Layer) : Layer :=
  mkLayer (layer_isLoaded L) (layer_map L) (layer_opacity L) (layer_zIndex L)
          (layer_bound L) true.

Definition layer_markLoaded (L : Layer) : Layer :=
  mkLayer true (layer_map L) (layer_opacity L) (layer_zIndex L)
          (layer_bound L) (layer_destroyed L).

(** Events triggered on the animation object. *)
Inductive Event :=
| ChangeTime (date : Z)                                  (* 'change:time' *)
| LoadTimes (times : list Z) (timeLayers : gmap Z LayerId).  (* 'load:times' *)

Inductive Error := InvalidArgumentError | TypeError.

(** The animation object, with the part of the world it acts on. *)
Record t := mk {
  timeTolerance_ : Z;
  currentTime_ : Z;
  masterLayer_ : MasterLayer;
  timeLayers_ : gmap Z LayerId;
  times_ : list Z;
  (* the store of layer objects *)
  layers : gmap LayerId Layer;
  (* callbacks of [listenToOnce(this, 'load:times', ...)]; all of them are
     the same closure, so they are counted *)
  loadTimesListeners : nat;
  (* callbacks of [listenToOnce(newLayer, 'load', ...)]:
     the pair (newLayer, oldLayer) the closure captured *)
  layerLoadListeners : list (LayerId * option LayerId);
  (* layers waiting for the master layer's 'map:set' *)
  mapSetListeners : list LayerId;
  (* [_.defer]red calls of [triggerLayerLoad] *)
  deferred : list LayerId;
  (* is the [once('load:times')] handler on the layer loader still set *)
  loaderListening : bool;
  (* events triggered so far, oldest first *)
  triggered : list Event
}.

Definition set_timeTolerance_ (x : Z) (a : t) : t :=
  mk x (currentTime_ a) (masterLayer_ a) (timeLayers_ a) (times_ a) (layers a)
     (loadTimesListeners a) (layerLoadListeners a) (mapSetListeners a)
     (deferred a) (loaderListening a) (triggered a).
Definition set_currentTime_ (x : Z) (a : t) : t :=
  mk (timeTolerance_ a) x (masterLayer_ a) (timeLayers_ a) (times_ a) (layers a)
     (loadTimesListeners a) (layerLoadListeners a) (mapSetListeners a)
     (deferred a) (loaderListening a) (triggered a).
Definition set_masterLayer_ (x : MasterLayer) (a : t) : t :=
  mk (timeTolerance_ a) (currentTime_ a) x (timeLayers_ a) (times_ a) (layers a)
     (loadTimesListeners a) (layerLoadListeners a) (mapSetListeners a)
     (deferred a) (loaderListening a) (triggered a).
Definition set_timeLayers_ (x : gmap Z LayerId) (a : t) : t :=
  mk (timeTolerance_ a) (currentTime_ a) (masterLayer_ a) x (times_ a) (layers a)
     (loadTimesListeners a) (layerLoadListeners a) (mapSetListeners a)
     (deferred a) (loaderListening a) (triggered a).
Definition set_times_ (x : list Z) (a : t) : t :=
  mk (timeTolerance_ a) (currentTime_ a) (masterLayer_ a) (timeLayers_ a) x (layers a)
     (loadTimesListeners a) (layerLoadListeners a) (mapSetListeners a)
     (deferred a) (loaderListening a) (triggered a).
Definition set_layers (x : gmap LayerId Layer) (a : t) : t :=
  mk (timeTolerance_ a) (currentTime_ a) (masterLayer_ a) (timeLayers_ a) (times_ a) x
     (loadTimesListeners a) (layerLoadListeners a) (mapSetListeners a)
     (deferred a) (loaderListening a) (triggered a).
Definition set_loadTimesListeners (x : nat) (a : t) : t :=
  mk (timeTolerance_ a) (currentTime_ a) (masterLayer_ a) (timeLayers_ a) (times_ a)
     (layers a) x (layerLoadListeners a) (mapSetListeners a)
     (deferred a) (loaderListening a) (triggered a).
Definition set_layerLoadListeners (x : list (LayerId * option LayerId)) (a : t) : t :=
  mk (timeTolerance_ a) (currentTime_ a) (masterLayer_ a) (timeLayers_ a) (times_ a)
     (layers a) (loadTimesListeners a) x (mapSetListeners a)
     (deferred a) (loaderListening a) (triggered a).
Definition set_mapSetListeners (x : list LayerId) (a : t) : t :=
  mk (timeTolerance_ a) (currentTime_ a) (masterLayer_ a) (timeLayers_ a) (times_ a)
     (layers a) (loadTimesListeners a) (layerLoadListeners a) x
     (deferred a) (loaderListening a) (triggered a).
Definition set_deferred (x : list LayerId) (a : t) : t :=
  mk (timeTolerance_ a) (currentTime_ a) (masterLayer_ a) (timeLayers_ a) (times_ a)
     (layers a) (loadTimesListeners a) (layerLoadListeners a) (mapSetListeners a)
     x (loaderListening a) (triggered a).
Definition set_loaderListening (x : bool) (a : t) : t :=
  mk (timeTolerance_ a) (currentTime_ a) (masterLayer_ a) (timeLayers_ a) (times_ a)
     (layers a) (loadTimesListeners a) (layerLoadListeners a) (mapSetListeners a)
     (deferred a) x (triggered a).
Definition set_triggered (x : list Event) (a : t) : t :=
  mk (timeTolerance_ a) (currentTime_ a) (masterLayer_ a) (timeLayers_ a) (times_ a)
     (layers a) (loadTimesListeners a) (layerLoadListeners a) (mapSetListeners a)
     (deferred a) (loaderListening a) x.

(** *** The monad of methods: state [t], exceptions [Error] *)

Inductive Result (A : Type) :=
| Ok (x : A) (a : t)
| Throw (e : Error) (a : t).
Arguments Ok {A} x a.
Arguments Throw {A} e a.

Definition M (A : Type) : Type := t -> Result A.

Definition ret {A} (x : A) : M A := fun a => Ok x a.
Definition bind {A B} (m : M A) (k : A -> M B) : M B :=
  fun a => match m a with
           | Ok x a' => k x a'
           | Throw e a' => Throw e a'
           end.
Definition throw {A} (e : Error) : M A := fun a => Throw e a.
Definition gets {A} (f : t -> A) : M A := fun a => Ok (f a) a.
Definition modify (f : t -> t) : M unit := fun a => Ok tt (f a).

(** The state a call leaves behind, whether it returned or threw. *)
Definition state_of {A} (r : Result A) : t :=
  match r with Ok _ a => a | Throw _ a => a end.

Declare Scope anim_scope.
Delimit Scope anim_scope with anim.
Notation "x <- c1 ;; c2" := (bind c1 (fun x => c2))
  (at level 100, c1 at next level, right associativity) : anim_scope.
Notation "c1 ;; c2" := (bind c1 (fun _ => c2))
  (at level 100, right associativity) : anim_scope.
Local Open Scope anim_scope.

(** *** Read-only methods *)

(** [getTimes]: a copy of [times_]. *)
Definition getTimes (this : t) : list Z := times_ this.

(** Modelled from the spec: [getCurrentTime] belongs to
    AbstractAnimation, which is not in src; it returns the recorded
    current time. *)
Definition getCurrentTime (this : t) : Value := VNumber (currentTime_ this).

Definition isTimeInSameTenseAsTarget (now targetTime time : Z) : bool :=
  let isTargetInFuture := Z.gtb targetTime now in
  let isTimeInFuture := Z.gtb time now in
  (isTimeInFuture && isTargetInFuture) || (negb isTimeInFuture && negb isTargetInFuture).

Definition getClosestTime_ (now targetTime : Z) (this : t) : option Z :=
  let timesInSameTense :=
    List.filter (isTimeInSameTenseAsTarget now targetTime) (times_ this) in
  findClosest targetTime timesInSameTense.

(** [this.timeLayers_[time]], where [time] may be undefined. *)
Definition getLayerForTime_ (now time : Z) (this : t) : option LayerId :=
  match getClosestTime_ now time this with
  | Some closest => timeLayers_ this !! closest
  | None => None
  end.

Definition getCurrentLayer (now : Z) (this : t) : option LayerId :=
  getLayerForTime_ now (currentTime_ this) this.

(** [Math.abs(time - closest)]; [None] is NaN. *)
Definition getTimeDeviation_ (now time : Z) (this : t) : option Z :=
  match getClosestTime_ now time this with
  | Some closest => Some (Z.abs (time - closest))
  | None => None
  end.

Definition getLayerIndex_ (now : Z) (this : t) : Z :=
  let timeOfCurrentLayer := getClosestTime_ now (currentTime_ this) this in
  indexOf (times_ this) timeOfCurrentLayer.

Definition isCurrentLayerFirst_ (now : Z) (this : t) : bool :=
  Z.eqb (getLayerIndex_ now this) 0.

Definition isCurrentLayerLast_ (now : Z) (this : t) : bool :=
  Z.eqb (getLayerIndex_ now this) (Z.of_nat (length (times_ this)) - 1).

Definition getNextTime_ (now : Z) (this : t) : option Z :=
  if isCurrentLayerLast_ now this
  then at_index (times_ this) 0
  else at_index (times_ this) (getLayerIndex_ now this + 1).

Definition getPreviousTime_ (now : Z) (this : t) : option Z :=
  let lastTime := last (times_ this) in
  if isCurrentLayerFirst_ now this
  then lastTime
  else at_index (times_ this) (getLayerIndex_ now this - 1).

Definition getOrderedTimesFromLayers_ (timeLayers : gmap Z LayerId) : list Z :=
  (* a key is the decimal string of an integer timestamp, and parseInt
     reads the timestamp back *)
  let times := (map_to_list timeLayers).*1 in
  sortBy_identity times.

(** *** Methods of layer objects, called through a reference *)

(** [layer.isLoaded()]; a call on undefined throws a TypeError. *)
Definition isLoaded (layer : option LayerId) : M bool :=
  fun a =>
    match layer with
    | Some l =>
        match layers a !! l with
        | Some L => Ok (layer_isLoaded L) a
        | None => Throw TypeError a
        end
    | None => Throw TypeError a
    end.

Definition update_layer (f : Layer -> Layer) (l : LayerId) : M unit :=
  modify (fun a => set_layers (alter f l (layers a)) a).

(** *** Events *)

(** Modelled from the spec: aeris/events is not in src.
    [this.trigger(event, ...)] as outside observers see it: "a
    'change:time' event is triggered with the corresponding Date". *)
Definition trigger (e : Event) : M unit :=
  modify (fun a => set_triggered (triggered a ++ [e]) a).

(** Modelled from the spec: aeris/events is not in src.
    [this.listenToOnce(this, 'load:times', function() {
       this.goToTime(this.getCurrentTime()); })] adds a callback that runs
    once, when the event fires next. *)
Definition listenToOnce_loadTimes : M unit :=
  modify (fun a => set_loadTimesListeners (S (loadTimesListeners a)) a).

Definition is_listener_of (l : LayerId) (cb : LayerId * option LayerId) : bool :=
  Pos.eqb (fst cb) l.

(** Modelled from the spec: aeris/events is not in src.
    [this.stopListening(newLayer, 'load')] removes the callbacks this
    object has on the layer's 'load' event. *)
Definition stopListening_load (newLayer : LayerId) : M unit :=
  modify (fun a =>
    set_layerLoadListeners
      (List.filter (fun cb => negb (is_listener_of newLayer cb)) (layerLoadListeners a)) a).

(** Modelled from the spec: aeris/events is not in src.
    [this.listenToOnce(newLayer, 'load', ...)] adds "a one-time listener
    on that layer's 'load' event". *)
Definition listenToOnce_load (oldLayer : option LayerId) (newLayer : LayerId) : M unit :=
  modify (fun a =>
    set_layerLoadListeners (layerLoadListeners a ++ [(newLayer, oldLayer)]) a).

(** *** Transitions *)

Definition hasMap (m : MasterLayer) : bool :=
  match master_map m with Some _ => true | None => false end.

(** [triggerLayerLoad], run from the [_.defer] queue. *)
Definition triggerLayerLoad (layer : LayerId) : M unit :=
  master <- gets masterLayer_ ;;
  update_layer (layer_set_opacity_map 0%Q (master_map master)) layer.

(** The first call of the throttled function defers [triggerLayerLoad]. *)
Definition triggerLayerLoad_non_blocking (layer : LayerId) : M unit :=
  modify (fun a => set_deferred (deferred a ++ [layer]) a).

Definition preloadTimeLayer_ (layer : option LayerId) : M unit :=
  loaded <- isLoaded layer ;;
  match layer with
  | None => throw TypeError
  | Some l =>
      if loaded then ret tt
      else
        master <- gets masterLayer_ ;;
        if hasMap master
        then triggerLayerLoad_non_blocking l
        else modify (fun a => set_mapSetListeners (mapSetListeners a ++ [l]) a)
  end.

Definition boundAttrs : list Attr := [attr_map; attr_opacity; attr_zIndex].

Definition syncLayerToMaster_ (layer : LayerId) : M unit :=
  master <- gets masterLayer_ ;;
  update_layer (layer_bindAttributesTo master boundAttrs) layer.

Definition transitionNotLoadedLayer_ (oldLayer : option LayerId) (newLayer : LayerId)
    : M unit :=
  stopListening_load newLayer ;;
  listenToOnce_load oldLayer newLayer.

(** The body of the [_.each] over the frames in [transition_]. *)
Definition hideLayer (newLayer layer : LayerId) (L : Layer) : Layer :=
  let L := layer_stopListening L in
  if Pos.eqb layer newLayer then L else layer_setOpacity 0%Q L.

Definition hideLayers (newLayer : LayerId) (timeLayers : gmap Z LayerId)
    (store : gmap LayerId Layer) : gmap LayerId Layer :=
  fold_left (fun store layer => alter (hideLayer newLayer layer) layer store)
            (map_to_list timeLayers).*2 store.

Definition transition_ (now : Z) (oldLayer newLayer : option LayerId) : M unit :=
  preloadTimeLayer_ newLayer ;;
  loaded <- isLoaded newLayer ;;
  match newLayer with
  | None => throw TypeError
  | Some l =>
      if negb loaded then transitionNotLoadedLayer_ oldLayer l
      else
        modify (fun a => set_layers (hideLayers l (timeLayers_ a) (layers a)) a) ;;
        deviation <- gets (fun this => getTimeDeviation_ now (currentTime_ this) this) ;;
        tolerance <- gets timeTolerance_ ;;
        let isWithinTimeTolerance :=
          match deviation with
          | Some d => Z.ltb d tolerance
          | None => false              (* NaN < tolerance *)
          end in
        if isWithinTimeTolerance
        then syncLayerToMaster_ l
        else update_layer (layer_setOpacity 0%Q) l
  end.

(** *** Public methods *)

Definition goToTime (now : Z) (time : Value) : M unit :=
  times <- gets getTimes ;;
  let haveTimesBeenLoaded := negb (Nat.eqb (length times) 0) in
  let time := if isDate time then getTime time else time in
  if negb (isNumeric time) then throw InvalidArgumentError
  else
    match numberOf time with
    | None => throw InvalidArgumentError
    | Some time =>
        currentLayer <- gets (getCurrentLayer now) ;;
        nextLayer <- gets (getLayerForTime_ now time) ;;
        modify (set_currentTime_ time) ;;
        (if negb haveTimesBeenLoaded
         then listenToOnce_loadTimes
         else transition_ now currentLayer nextLayer) ;;
        current <- gets currentTime_ ;;
        trigger (ChangeTime current)
    end.

Definition refreshCurrentLayer_ (now : Z) : M unit :=
  current <- gets getCurrentTime ;;
  goToTime now current.

Definition next (now : Z) : M unit :=
  nextTime <- gets (getNextTime_ now) ;;
  if negb (truthy nextTime) then ret tt
  else match nextTime with
       | Some t => goToTime now (VNumber t)
       | None => ret tt
       end.

Definition previous (now : Z) : M unit :=
  prevTime <- gets (getPreviousTime_ now) ;;
  if negb (truthy prevTime) then ret tt
  else match prevTime with
       | Some t => goToTime now (VNumber t)
       | None => ret tt
       end.

Definition setTimeTolerance (now : Z) (tolerance : Z) : M unit :=
  modify (set_timeTolerance_ tolerance) ;;
  current <- gets currentTime_ ;;
  goToTime now (VNumber current).

Definition setTimeLayers_ (timeLayers : gmap Z LayerId) : M unit :=
  modify (set_timeLayers_ timeLayers) ;;
  modify (set_times_ (getOrderedTimesFromLayers_ timeLayers)).

Definition master_resetStrategy (m : MasterLayer) : MasterLayer :=
  mkMaster (master_map m) (master_opacity m) (master_zIndex m) true.

Definition master_removeStrategy (m : MasterLayer) : MasterLayer :=
  mkMaster (master_map m) (master_opacity m) (master_zIndex m) false.

Definition destroy : M unit :=
  modify (fun a =>
    set_layers (fold_left (fun store layer => alter layer_destroy layer store)
                          (map_to_list (timeLayers_ a)).*2 (layers a)) a) ;;
  modify (set_timeLayers_ ∅) ;;
  modify (set_times_ []) ;;
  (* stopListening() *)
  modify (set_loadTimesListeners 0%nat) ;;
  modify (set_layerLoadListeners []) ;;
  modify (set_mapSetListeners []) ;;
  modify (fun a => set_masterLayer_ (master_resetStrategy (masterLayer_ a)) a).

(** *** What the environment does to the animation *)

(** [this.trigger('load:times', times, timeLayers)]: every callback set
    by [listenToOnce] when the event fires runs once, and is removed
    before it runs. *)
Fixpoint run_loadTimes_callbacks (now : Z) (n : nat) : M unit :=
  match n with
  | O => ret tt
  | S n' =>
      modify (fun a => set_loadTimesListeners (Nat.pred (loadTimesListeners a)) a) ;;
      current <- gets getCurrentTime ;;
      goToTime now current ;;
      run_loadTimes_callbacks now n'
  end.

Definition trigger_loadTimes (now : Z) (times : list Z) (timeLayers : gmap Z LayerId)
    : M unit :=
  trigger (LoadTimes times timeLayers) ;;
  n <- gets loadTimesListeners ;;
  run_loadTimes_callbacks now n.

(** The layer loader fires 'load:times': the handler that the call of
    [loadAnimationLayers] in the constructor set, with [once].  Only that
    call is modelled: a later call of the public [loadAnimationLayers]
    would set one more handler. *)
Definition on_loader_loadTimes (now : Z) (times : list Z)
    (timeLayers : gmap Z LayerId) : M unit :=
  listening <- gets loaderListening ;;
  if negb listening then ret tt
  else
    modify (set_loaderListening false) ;;
    setTimeLayers_ timeLayers ;;
    refreshCurrentLayer_ now ;;
    trigger_loadTimes now times timeLayers.

(** The callback of [transitionNotLoadedLayer_]. *)
Definition layer_load_callback (now : Z) (oldLayer : option LayerId)
    (newLayer : LayerId) : M unit :=
  current <- gets (getCurrentLayer now) ;;
  let isNewLayerStillActive := bool_decide (current = Some newLayer) in
  if isNewLayerStillActive then transition_ now oldLayer (Some newLayer) else ret tt.

Fixpoint remove_first (cb : LayerId * option LayerId)
    (l : list (LayerId * option LayerId)) : list (LayerId * option LayerId) :=
  match l with
  | [] => []
  | x :: l' => if bool_decide (x = cb) then l' else x :: remove_first cb l'
  end.

Fixpoint run_load_callbacks (now : Z) (cbs : list (LayerId * option LayerId)) : M unit :=
  match cbs with
  | [] => ret tt
  | cb :: rest =>
      modify (fun a => set_layerLoadListeners (remove_first cb (layerLoadListeners a)) a) ;;
      layer_load_callback now (snd cb) (fst cb) ;;
      run_load_callbacks now rest
  end.

(** A layer finishes loading and fires 'load'. *)
Definition on_layer_load (now : Z) (layer : LayerId) : M unit :=
  update_layer layer_markLoaded layer ;;
  cbs <- gets (fun a => List.filter (is_listener_of layer) (layerLoadListeners a)) ;;
  run_load_callbacks now cbs.

(** The event loop runs the oldest deferred call. *)
Definition run_deferred : M unit :=
  queue <- gets deferred ;;
  match queue with
  | [] => ret tt
  | layer :: rest => modify (set_deferred rest) ;; triggerLayerLoad layer
  end.

(** *** Construction *)

Record Options := mkOptions { opt_timeTolerance : option Z }.

Definition default_timeTolerance : Z := 1000 * 60 * 60 * 2.

(** [_.defaults(opt_options || {}, {..., timeTolerance: 2 hours})] *)
Definition defaults (opt_options : option Options) : Z :=
  match opt_options with
  | Some o => default default_timeTolerance (opt_timeTolerance o)
  | None => default_timeTolerance
  end.

(** [new TileAnimation(layer, opt_options)].  [initialTime] is the current
    time AbstractAnimation (not in src) starts with; [store] holds the
    layer objects that exist. *)
Definition new (initialTime : Z) (store : gmap LayerId Layer)
    (layer : MasterLayer) (opt_options : option Options) : t :=
  mk (defaults opt_options) initialTime (master_removeStrategy layer)
     ∅ [] store 0%nat [] [] [] true [].

(** *** Runs of public operations *)

Inductive Op :=
| OpNext
| OpPrevious
| OpGoToTime (time : Value)
| OpSetTimeTolerance (tolerance : Z).

Definition run_op (now : Z) (op : Op) : M unit :=
  match op with
  | OpNext => next now
  | OpPrevious => previous now
  | OpGoToTime time => goToTime now time
  | OpSetTimeTolerance tolerance => setTimeTolerance now tolerance
  end.

(** The client calls one operation after the other, each at its own
    clock reading; an exception reaches the client, and the animation
    object stays as the failed call left it. *)
Fixpoint run_ops (ops : list (Z * Op)) (this : t) : t :=
  match ops with
  | [] => this
  | (now, op) :: rest => run_ops rest (state_of (run_op now op this))
  end.

(** *** Well-formed animations *)

(** The timeline is the one [setTimeLayers_] computed from the frames,
    it is not empty, and every frame is a layer object of the store. *)
Definition timeline_loaded (this : t) : Prop :=
  times_ this = getOrderedTimesFromLayers_ (timeLayers_ this) /\
  times_ this <> [] /\
  forall time layer, timeLayers_ this !! time = Some layer ->
                     is_Some (layers this !! layer).

(** [layer] is one of the frames. *)
Definition is_frame (layer : LayerId) (this : t) : Prop :=
  exists time, timeLayers_ this !! time = Some layer.

(** [getTimeDeviation_(currentTime_) < timeTolerance_] *)
Definition isWithinTimeTolerance (now : Z) (this : t) : bool :=
  match getTimeDeviation_ now (currentTime_ this) this with
  | Some d => Z.ltb d (timeTolerance_ this)
  | None => false
  end.

(** A field of the animation object survives a call. *)
Definition keeps {X A : Type} (f : t -> X) (m : M A) : Prop :=
  forall a, f (state_of (m a)) = f a.

(** A field that the store of layers, the listeners on layers and the
    deferred calls do not touch survives a transition. *)
Definition transition_frame {X} (f : t -> X) : Prop :=
  (forall x a, f (set_layers x a) = f a) /\
  (forall x a, f (set_layerLoadListeners x a) = f a) /\
  (forall x a, f (set_mapSetListeners x a) = f a) /\
  (forall x a, f (set_deferred x a) = f a).

(** The state after a transition to a loaded layer. *)
Definition transitioned (now : Z) (l : LayerId) (a : t) : t :=
  let a1 := set_layers (hideLayers l (timeLayers_ a) (layers a)) a in
  set_layers
    (alter (if isWithinTimeTolerance now a
            then layer_bindAttributesTo (masterLayer_ a) boundAttrs
            else layer_setOpacity 0%Q) l (layers a1)) a1.

(** The state after a transition to a layer that is still loading. *)
Definition awaiting (old : option LayerId) (l : LayerId) (a : t) : t :=
  let a1 :=
    if hasMap (masterLayer_ a)
    then set_deferred (deferred a ++ [l]) a
    else set_mapSetListeners (mapSetListeners a ++ [l]) a in
  set_layerLoadListeners
    (List.filter (fun cb => negb (is_listener_of l cb)) (layerLoadListeners a1)
       ++ [(l, old)]) a1.

End TileAnimation.

(** ** The animation coordinator *)

Module AnimationSync.
Import Js.

(** Modelled from the spec: the AnimationSync class is not in src, only
    the example page that drives it.  By the spec it is a "coordinator
    that keeps multiple tile animations (e.g., radar, satellite) aligned
    to one shared timeline", and by the example page it "uses the same
    interface as the AerisTile animation objects", with [next(timestep)]
    and [previous(timestep)] going forward and back by [timestep]
    milliseconds.  The coordinator holds the animations and the shared
    current time; [goToTime] sends every animation to the shared time,
    in order, and an exception of an animation propagates. *)
Record t := mk {
  animations_ : list TileAnimation.t;
  currentTime_ : Z
}.

Inductive Result :=
| Ok (s : t)
| Throw (e : TileAnimation.Error) (s : t).

(** Modelled from the spec: AnimationSync is not in src.  Every
    animation is sent to the time, in order:
    [_.invoke(animations, 'goToTime', time)]; the first exception stops
    the loop. *)
Fixpoint invoke_goToTime (now : Z) (time : Value) (animations : list TileAnimation.t)
    : list TileAnimation.t * option TileAnimation.Error :=
  match animations with
  | [] => ([], None)
  | a :: rest =>
      match TileAnimation.goToTime now time a with
      | TileAnimation.Ok _ a' =>
          let (rest', e) := invoke_goToTime now time rest in (a' :: rest', e)
      | TileAnimation.Throw e a' => (a' :: rest, Some e)
      end
  end.

(** Modelled from the spec: AnimationSync is not in src.  [goToTime]
    "keeps multiple tile animations aligned to one shared timeline": it
    takes a Date or a timestamp as the tile animation does, records the
    shared time and sends every animation to it. *)
Definition goToTime (now : Z) (time : Value) (this : t) : Result :=
  let time := if isDate time then getTime time else time in
  match numberOf time with
  | None => Throw TileAnimation.InvalidArgumentError this
  | Some shared =>
      match invoke_goToTime now (VNumber shared) (animations_ this) with
      | (animations, None) => Ok (mk animations shared)
      | (animations, Some e) => Throw e (mk animations shared)
      end
  end.

(** Modelled from the spec: AnimationSync is not in src.  The example
    page calls [next(HOUR)] to "go forward 1 hour". *)
Definition next (now : Z) (timestep : Z) (this : t) : Result :=
  goToTime now (VNumber (currentTime_ this + timestep)) this.

(** Modelled from the spec: AnimationSync is not in src.  The example
    page calls [previous(HOUR)] to "go back 1 hour". *)
Definition previous (now : Z) (timestep : Z) (this : t) : Result :=
  goToTime now (VNumber (currentTime_ this - timestep)) this.

(** One step of the animation, as the controls of the example page
    drive it. *)
Inductive Op :=
| GoToTime (time : Value)
| Next (timestep : Z)
| Previous (timestep : Z).

Definition step (now : Z) (op : Op) (this : t) : Result :=
  match op with
  | GoToTime time => goToTime now time this
  | Next timestep => next now timestep this
  | Previous timestep => previous now timestep this
  end.

Definition state_of (r : Result) : t :=
  match r with Ok s => s | Throw _ s => s end.

End AnimationSync.

(** ** JSON-like values *)

Module Json.

#[warnings="-register-all"] Inductive t :=
| Undefined
| Null
| Bool (b : bool)
| Num (n : Z)
| Str (s : string)
| Arr (elements : list t)
| Obj (fields : list (string * t)).   (* in enumeration order *)

(** [obj[name]] *)
Fixpoint lookup_field (name : string) (fields : list (string * t)) : t :=
  match fields with
  | [] => Undefined
  | (k, v) :: rest => if String.eqb k name then v else lookup_field name rest
  end.

Definition get (name : string) (v : t) : t :=
  match v with
  | Obj fields => lookup_field name fields
  | _ => Undefined
  end.

Definition truthy (v : t) : bool :=
  match v with
  | Undefined | Null => false
  | Bool b => b
  | Num n => negb (Z.eqb n 0)
  | Str s => negb (String.eqb s EmptyString)
  | Arr _ | Obj _ => true
  end.

End Json.

(** ** The URI serializer of AerisAPI *)

Module AerisAPI.
Import Json.
Local Open Scope string_scope.














End AerisAPI.

(** ** The GeoJSON feature collection *)

Module GeoJson.
Import Json.
Local Open Scope string_scope.

Section GeoJsonFeatureCollection.
(** The base class AerisApiCollection is not in src; its constructor,
    its [parse] and its [toJSON] are parameters. *)
Variable Collection : Type.
Variable Options : Type.
Variable AerisApiCollection_new : Json.t -> Options -> Collection.
Variable AerisApiCollection_parse : Json.t -> Json.t.
Variable toJSON : Collection -> Json.t.
(** [_.defaults(opt_options || {}, {model: ..., server: ...})] *)
Variable defaults : option Options -> Options.

Definition parse (geoJson : Json.t) : Json.t :=
  let models := get "features" geoJson in
  AerisApiCollection_parse models.

(** The models handed to the base constructor. *)
Definition models_of (geoJson : Json.t) : Json.t :=
  if truthy geoJson then parse geoJson else Null.

Definition GeoJsonFeatureCollection (geoJson : Json.t)
    (opt_options : option Options) : Collection :=
  let models := models_of geoJson in
  let options := defaults opt_options in
  AerisApiCollection_new models options.

Definition toGeoJson (this : Collection) : Json.t :=
  Obj [("type", Str "FeatureCollection"); ("features", toJSON this)].

End GeoJsonFeatureCollection.

End GeoJson.

(** ** Concrete animations *)

Module Examples.
Import Js TileAnimation.

Definition shown : Layer := mkLayer true (Some 1%positive) 1%Q 3 boundAttrs false.
Definition hidden : Layer := mkLayer true None 0%Q 0 [] false.
Definition loading : Layer := mkLayer false None 0%Q 0 [] false.

Definition master : MasterLayer := mkMaster (Some 1%positive) (1 # 2)%Q 3 false.

Definition frames : gmap Z LayerId :=
  list_to_map [(10, 1%positive); (101, 2%positive)].

(** Two frames, one before and one after the clock reading 100. *)
Definition straddling : TileAnimation.t :=
  mk default_timeTolerance 10 master frames [10; 101]
     (list_to_map [(1%positive, shown); (2%positive, hidden)])
     0%nat [] [] [] false [].

Definition radar_frames : gmap Z LayerId :=
  list_to_map [(10, 1%positive); (20, 2%positive); (30, 3%positive)].

(** Three loaded frames in the past of the clock reading 100; the first
    one is shown. *)
Definition radar : TileAnimation.t :=
  mk default_timeTolerance 10 master radar_frames [10; 20; 30]
     (list_to_map [(1%positive, shown); (2%positive, hidden); (3%positive, hidden)])
     0%nat [] [] [] false [].

(** The same frames, with a current time ahead of the clock. *)
Definition radar_ahead : TileAnimation.t := set_currentTime_ 150 radar.

(** The frame at 20 is still loading. *)
Definition radar_loading : TileAnimation.t :=
  set_layers (list_to_map [(1%positive, shown); (2%positive, loading); (3%positive, hidden)])
             radar.

Definition satellite_frames : gmap Z LayerId :=
  list_to_map [(15, 1%positive); (45, 2%positive)].

Definition satellite : TileAnimation.t :=
  mk default_timeTolerance 15 master satellite_frames [15; 45]
     (list_to_map [(1%positive, shown); (2%positive, hidden)])
     0%nat [] [] [] false [].

(** A fresh animation: no times loaded yet. *)
Definition fresh : TileAnimation.t :=
  new 0 (list_to_map [(1%positive, hidden); (2%positive, hidden)]) master None.

(** Radar and satellite on one timeline. *)
Definition weather : AnimationSync.t := AnimationSync.mk [radar; satellite] 10.

End Examples.

(** ** Playback: repeated calls and what is on display *)

Module Playback.
Import Js TileAnimation.

(** Calls of [next()] in a row, one at each of the clock readings
    [nows]. *)
Fixpoint repeat_next (nows : list Z) (this : t) : t :=
  match nows with
  | [] => this
  | now :: rest => repeat_next rest (state_of (next now this))
  end.

(** A layer object that shows nothing of the animation: opacity 0 and no
    attribute bound to the master layer. *)
Definition hidden_layer (L : Layer) : Prop :=
  layer_opacity L = 0%Q /\ layer_bound L = [].

(** A layer object that follows the master layer. *)
Definition synced_layer (m : MasterLayer) (L : Layer) : Prop :=
  layer_bound L = boundAttrs /\ layer_map L = master_map m /\
  layer_opacity L = master_opacity m /\ layer_zIndex L = master_zIndex m.

(** Every frame of [this] but [shown] is hidden in the store of [after]. *)
Definition others_hidden (shown : LayerId) (this after : t) : Prop :=
  forall l L, is_frame l this -> l <> shown -> layers after !! l = Some L ->
              hidden_layer L.

(** A timeline that starts at the epoch. *)
Definition epoch_frames : gmap Z LayerId :=
  list_to_map [(0, 1%positive); (20, 2%positive)].

Definition epoch : TileAnimation.t :=
  mk default_timeTolerance 20 Examples.master epoch_frames [0; 20]
     (list_to_map [(1%positive, Examples.hidden); (2%positive, Examples.shown)])
     0%nat [] [] [] false [].

End Playback.

(** ** Query strings: the pairs the serializer writes *)

Module QueryString.
Import Json AerisAPI.
Local Open Scope string_scope.





End QueryString.

(** ** What the coordinator leaves on display *)

Module Coordination.
Import Js Playback.

(** The time a step of the coordinator sends its animations to, when the
    step has one. *)
Definition target (op : AnimationSync.Op) (this : AnimationSync.t) : option Z :=
  match op with
  | AnimationSync.GoToTime time =>
      numberOf (if isDate time then getTime time else time)
  | AnimationSync.Next timestep =>
      Some (AnimationSync.currentTime_ this + timestep)
  | AnimationSync.Previous timestep =>
      Some (AnimationSync.currentTime_ this - timestep)
  end.

(** The animation has a frame for the time [shared], or has no times yet:
    either its times are not loaded, or a timestamp lies in the tense of
    [shared] and the layer of the nearest one is an object of the store. *)
Definition ready (now shared : Z) (a : TileAnimation.t) : Prop :=
  TileAnimation.times_ a = [] \/
  exists c l,
    TileAnimation.getClosestTime_ now shared a = Some c /\
    TileAnimation.timeLayers_ a !! c = Some l /\
    is_Some (TileAnimation.layers a !! l).

(** [after] is [before] sent to the time [shared]: the time is its current
    time, and its frame for that time is on display, as far as it can be.
    Without times the animation waits for them.  With times, the frame
    nearest to [shared] in its tense, when loaded, follows the master layer
    if it is within tolerance and is hidden if it is not, and every other
    frame is hidden; when still loading, nothing is touched and one
    listener waits for the frame to load. *)
Definition shows (now shared : Z) (before after : TileAnimation.t) : Prop :=
  TileAnimation.currentTime_ after = shared /\
  TileAnimation.times_ after = TileAnimation.times_ before /\
  TileAnimation.timeLayers_ after = TileAnimation.timeLayers_ before /\
  match TileAnimation.times_ before with
  | [] =>
      TileAnimation.layers after = TileAnimation.layers before /\
      TileAnimation.loadTimesListeners after
      = S (TileAnimation.loadTimesListeners before)
  | _ :: _ =>
      exists c l L,
        TileAnimation.getClosestTime_ now shared before = Some c /\
        TileAnimation.timeLayers_ before !! c = Some l /\
        TileAnimation.layers before !! l = Some L /\
        if TileAnimation.layer_isLoaded L
        then
          others_hidden l before after /\
          exists L', TileAnimation.layers after !! l = Some L' /\
            (Z.abs (shared - c) < TileAnimation.timeTolerance_ before ->
             synced_layer (TileAnimation.masterLayer_ before) L') /\
            (TileAnimation.timeTolerance_ before <= Z.abs (shared - c) ->
             hidden_layer L')
        else
          TileAnimation.layers after = TileAnimation.layers before /\
          List.filter (TileAnimation.is_listener_of l)
                      (TileAnimation.layerLoadListeners after)
          = [(l, TileAnimation.getCurrentLayer now before)]
  end.

(** [a] displays its frame for the time [shared]: the time is its current
    time and the frame nearest to it in its tense follows the master
    layer. *)
Definition displays (now shared : Z) (a : TileAnimation.t) : Prop :=
  TileAnimation.currentTime_ a = shared /\
  exists c l L,
    TileAnimation.getClosestTime_ now shared a = Some c /\
    TileAnimation.timeLayers_ a !! c = Some l /\
    TileAnimation.layers a !! l = Some L /\
    synced_layer (TileAnimation.masterLayer_ a) L.

End Coordination.

(** * Properties of the tile animation *)

Module TileAnimationSpec.
Import Js TileAnimation.
Local Open Scope anim_scope.

(** ** Nearest-timestamp lookup *)

Lemma findClosest_from_spec target numbers : forall closest,
  let c := findClosest_from target closest numbers in
  (c = closest \/ c ∈ numbers) /\
  Z.abs (target - c) <= Z.abs (target - closest) /\
  (forall x, x ∈ numbers -> Z.abs (target - c) <= Z.abs (target - x)).
Proof.
  induction numbers as [|n rest IH]; intros closest; simpl.
  - split; [by left|]. split; [lia|]. intros x Hx. by apply elem_of_nil in Hx.
  - destruct (Z.ltb_spec (Z.abs (target - n)) (Z.abs (target - closest))) as [Hlt|Hge].
    + destruct (IH n) as (Hin & Hle & Hmin). split; [|split].
      * right. destruct Hin as [->|Hin]; [left|by right].
      * lia.
      * intros x [->|Hx]%elem_of_cons; [done|by apply Hmin].
    + destruct (IH closest) as (Hin & Hle & Hmin). split; [|split].
      * destruct Hin as [?|Hin]; [by left|right; by right].
      * done.
      * intros x [->|Hx]%elem_of_cons; [lia|by apply Hmin].
Qed.

Lemma findClosest_Some target numbers c :
  findClosest target numbers = Some c ->
  c ∈ numbers /\ forall x, x ∈ numbers -> Z.abs (target - c) <= Z.abs (target - x).
Proof.
  destruct numbers as [|n rest]; simpl; [done|]. intros [= <-].
  destruct (findClosest_from_spec target rest n) as (Hin & Hle & Hmin). split.
  - destruct Hin as [->|Hin]; [left|by right].
  - intros x [->|Hx]%elem_of_cons; [done|by apply Hmin].
Qed.

Lemma findClosest_None target numbers :
  findClosest target numbers = None <-> numbers = [].
Proof. by destruct numbers. Qed.

Lemma findClosest_exact target numbers :
  target ∈ numbers -> findClosest target numbers = Some target.
Proof.
  intros Hin. destruct (findClosest target numbers) as [c|] eqn:E.
  - apply findClosest_Some in E as [_ Hmin]. specialize (Hmin _ Hin).
    f_equal. lia.
  - apply findClosest_None in E. subst. by apply elem_of_nil in Hin.
Qed.

Lemma same_tense_refl now time : isTimeInSameTenseAsTarget now time time = true.
Proof. unfold isTimeInSameTenseAsTarget. by destruct (time >? now). Qed.

Lemma elem_of_timesInSameTense now target x (l : list Z) :
  x ∈ List.filter (isTimeInSameTenseAsTarget now target) l <->
  x ∈ l /\ isTimeInSameTenseAsTarget now target x = true.
Proof. rewrite !list_elem_of_In. apply filter_In. Qed.

Lemma getClosestTime__Some now target this c :
  getClosestTime_ now target this = Some c ->
  c ∈ times_ this /\ isTimeInSameTenseAsTarget now target c = true /\
  forall x, x ∈ times_ this -> isTimeInSameTenseAsTarget now target x = true ->
            Z.abs (c - target) <= Z.abs (x - target).
Proof.
  unfold getClosestTime_. intros [Hin Hmin]%findClosest_Some.
  apply elem_of_timesInSameTense in Hin as [Hin Htense]. repeat split; [done..|].
  intros x Hx Hxt.
  assert (x ∈ List.filter (isTimeInSameTenseAsTarget now target) (times_ this)) as Hxf
    by by apply elem_of_timesInSameTense.
  specialize (Hmin _ Hxf). lia.
Qed.

Lemma getClosestTime__None now target this :
  getClosestTime_ now target this = None ->
  forall x, x ∈ times_ this -> isTimeInSameTenseAsTarget now target x = false.
Proof.
  unfold getClosestTime_. intros E%findClosest_None x Hx.
  destruct (isTimeInSameTenseAsTarget now target x) eqn:Ht; [|done].
  assert (x ∈ List.filter (isTimeInSameTenseAsTarget now target) (times_ this)) as Hxf
    by by apply elem_of_timesInSameTense.
  rewrite E in Hxf. by apply elem_of_nil in Hxf.
Qed.

Lemma getClosestTime__member now time this :
  time ∈ times_ this -> getClosestTime_ now time this = Some time.
Proof.
  intros Hin. unfold getClosestTime_. apply findClosest_exact.
  apply elem_of_timesInSameTense. split; [done|apply same_tense_refl].
Qed.

(** ** Fields a call leaves alone *)

Lemma keeps_ret {X A} (f : t -> X) (x : A) : keeps f (ret x).
Proof. by intros a. Qed.

Lemma keeps_throw {X A} (f : t -> X) e : keeps f (throw (A:=A) e).
Proof. by intros a. Qed.

Lemma keeps_gets {X A} (f : t -> X) (g : t -> A) : keeps f (gets g).
Proof. by intros a. Qed.

Lemma keeps_modify {X} (f : t -> X) (g : t -> t) :
  (forall a, f (g a) = f a) -> keeps f (modify g).
Proof. intros H a. apply H. Qed.

Lemma keeps_bind {X A B} (f : t -> X) (m : M A) (k : A -> M B) :
  keeps f m -> (forall x, keeps f (k x)) -> keeps f (bind m k).
Proof.
  intros Hm Hk a. unfold bind. specialize (Hm a).
  destruct (m a) as [x a'|e a']; simpl in *; [|done].
  by rewrite Hk.
Qed.

Lemma keeps_isLoaded {X} (f : t -> X) layer : keeps f (isLoaded layer).
Proof.
  intros a. unfold isLoaded. destruct layer as [l|]; [|done].
  by destruct (layers a !! l).
Qed.

Ltac keeps_step :=
  first
    [ apply keeps_ret | apply keeps_throw | apply keeps_gets
    | apply keeps_isLoaded
    | apply keeps_modify; intros; reflexivity
    | apply keeps_bind; [|intros]
    | match goal with
      | |- keeps _ (if ?b then _ else _) => destruct b
      | |- keeps _ (match ?x with _ => _ end) => destruct x
      | |- keeps _ (let _ := _ in _) => cbv zeta
      end ].

Ltac keeps_tac := repeat keeps_step.

Lemma keeps_update_layer {X} (f : t -> X) g l :
  transition_frame f -> keeps f (update_layer g l).
Proof. intros (H & _) a. apply H. Qed.

Lemma keeps_transition_ {X} (f : t -> X) now old new :
  transition_frame f -> keeps f (transition_ now old new).
Proof.
  intros (H1 & H2 & H3 & H4).
  unfold transition_, preloadTimeLayer_, transitionNotLoadedLayer_,
    syncLayerToMaster_, stopListening_load, listenToOnce_load,
    triggerLayerLoad_non_blocking, update_layer.
  repeat first
    [ keeps_step
    | apply keeps_modify; intros; first [apply H1|apply H2|apply H3|apply H4] ].
Qed.

Ltac frame := repeat split; intros; reflexivity.

Lemma keeps_goToTime {X} (f : t -> X) now time :
  transition_frame f ->
  (forall x a, f (set_currentTime_ x a) = f a) ->
  (forall x a, f (set_loadTimesListeners x a) = f a) ->
  (forall x a, f (set_triggered x a) = f a) ->
  keeps f (goToTime now time).
Proof.
  intros Hf H1 H2 H3. unfold goToTime, listenToOnce_loadTimes, trigger.
  repeat first
    [ apply keeps_transition_; assumption
    | keeps_step
    | apply keeps_modify; intros; first [apply H1|apply H2|apply H3] ].
Qed.

(** ** [goToTime] past its argument checks *)

Lemma goToTime_number now time this :
  goToTime now (VNumber time) this =
  ((if Nat.eqb (length (times_ this)) 0
    then listenToOnce_loadTimes
    else transition_ now (getCurrentLayer now this) (getLayerForTime_ now time this)) ;;
   trigger (ChangeTime time)) (set_currentTime_ time this).
Proof.
  unfold goToTime, bind, gets, modify, getTimes; simpl.
  destruct (Nat.eqb (length (times_ this)) 0); simpl; [done|].
  pose proof (keeps_transition_ currentTime_ now (getCurrentLayer now this)
                (getLayerForTime_ now time this) ltac:(frame)
                (set_currentTime_ time this)) as Hk.
  destruct (transition_ _ _ _ _); simpl in *; [|done].
  by rewrite Hk.
Qed.

Lemma goToTime_date now time this :
  goToTime now (VDate (Some time)) this = goToTime now (VNumber time) this.
Proof. reflexivity. Qed.

Lemma goToTime_invalid now time this :
  isDate time = false -> isNumeric time = false ->
  goToTime now time this = Throw InvalidArgumentError this.
Proof.
  intros Hd Hn. unfold goToTime, bind, gets; simpl. by rewrite Hd, Hn.
Qed.

(** ** The loop over the frames in [transition_] *)

Lemma hideLayer_idemp newLayer l L :
  hideLayer newLayer l (hideLayer newLayer l L) = hideLayer newLayer l L.
Proof. unfold hideLayer. by destruct (Pos.eqb l newLayer). Qed.

Lemma hide_fold_lookup newLayer (ids : list LayerId) :
  forall (store : gmap LayerId Layer) l,
  fold_left (fun store layer => alter (hideLayer newLayer layer) layer store) ids store !! l =
  if bool_decide (l ∈ ids) then hideLayer newLayer l <$> store !! l else store !! l.
Proof.
  induction ids as [|x ids IH]; intros store l; cbn [fold_left].
  - rewrite bool_decide_eq_false_2; [done|]. apply not_elem_of_nil.
  - rewrite IH. destruct (decide (x = l)) as [->|Hne].
    + rewrite lookup_alter_eq.
      rewrite (bool_decide_eq_true_2 (l ∈ l :: ids)) by left.
      case_bool_decide; [|done].
      destruct (store !! l); simpl; [|done]. by rewrite hideLayer_idemp.
    + rewrite lookup_alter_ne by done.
      apply (f_equal (fun b : bool => if b then _ else _)).
      apply bool_decide_ext. rewrite elem_of_cons. intuition congruence.
Qed.

Lemma elem_of_frames (timeLayers : gmap Z LayerId) l :
  l ∈ (map_to_list timeLayers).*2 <-> exists time, timeLayers !! time = Some l.
Proof.
  rewrite list_elem_of_fmap. split.
  - intros ([time l'] & -> & Hin). exists time. by apply elem_of_map_to_list.
  - intros (time & Hl). exists (time, l). split; [done|]. by apply elem_of_map_to_list.
Qed.

Lemma hideLayers_frame newLayer timeLayers store l :
  (exists time, timeLayers !! time = Some l) ->
  hideLayers newLayer timeLayers store !! l = hideLayer newLayer l <$> store !! l.
Proof.
  intros H. unfold hideLayers. rewrite hide_fold_lookup.
  rewrite bool_decide_eq_true_2; [done|]. by apply elem_of_frames.
Qed.

Lemma hideLayers_other newLayer timeLayers store l :
  (forall time, timeLayers !! time <> Some l) ->
  hideLayers newLayer timeLayers store !! l = store !! l.
Proof.
  intros H. unfold hideLayers. rewrite hide_fold_lookup.
  rewrite bool_decide_eq_false_2; [done|].
  intros (time & Hl)%elem_of_frames. by apply (H time).
Qed.

(** ** What a transition does *)

Lemma isLoaded_Some l L a :
  layers a !! l = Some L -> isLoaded (Some l) a = Ok (layer_isLoaded L) a.
Proof. intros H. unfold isLoaded. by rewrite H. Qed.

Lemma preloadTimeLayer__loaded l L a :
  layers a !! l = Some L -> layer_isLoaded L = true ->
  preloadTimeLayer_ (Some l) a = Ok tt a.
Proof.
  intros H HL. unfold preloadTimeLayer_, bind. rewrite (isLoaded_Some _ _ _ H).
  by rewrite HL.
Qed.

Lemma transition__loaded now old l L a :
  layers a !! l = Some L -> layer_isLoaded L = true ->
  transition_ now old (Some l) a = Ok tt (transitioned now l a).
Proof.
  intros H HL. unfold transition_, bind.
  rewrite (preloadTimeLayer__loaded _ _ _ H HL), (isLoaded_Some _ _ _ H), HL; simpl.
  unfold transitioned, isWithinTimeTolerance, getTimeDeviation_, gets. simpl.
  change (getClosestTime_ now (currentTime_ a)
            (set_layers (hideLayers l (timeLayers_ a) (layers a)) a))
    with (getClosestTime_ now (currentTime_ a) a).
  destruct (getClosestTime_ now (currentTime_ a) a) as [c|]; simpl; [|done].
  by destruct (Z.ltb _ _).
Qed.

Lemma transition__not_loaded now old l L a :
  layers a !! l = Some L -> layer_isLoaded L = false ->
  transition_ now old (Some l) a = Ok tt (awaiting old l a).
Proof.
  intros H HL. unfold transition_, preloadTimeLayer_, bind.
  rewrite (isLoaded_Some _ _ _ H), HL; simpl. unfold gets, awaiting.
  destruct (hasMap (masterLayer_ a)); simpl;
    unfold isLoaded; simpl; rewrite H, HL; reflexivity.
Qed.

Lemma transition__ok now old l a :
  is_Some (layers a !! l) ->
  exists a', transition_ now old (Some l) a = Ok tt a'.
Proof.
  intros [L H]. destruct (layer_isLoaded L) eqn:HL.
  - eexists. by apply transition__loaded with L.
  - eexists. by apply transition__not_loaded with L.
Qed.

Lemma transition__undefined now old a :
  transition_ now old None a = Throw TypeError a.
Proof. reflexivity. Qed.

(** ** Invalid arguments *)

(** C7: for every argument that is neither a Date nor numeric, [goToTime]
    throws an InvalidArgumentError and leaves the animation as it was:
    the state at the throw is the state before the call, so the current
    time keeps its value, no layer was touched and no 'change:time' event
    was triggered. *)
Theorem C7_goToTime_rejects_invalid_time now time this :
  isDate time = false -> isNumeric time = false ->
  goToTime now time this = Throw InvalidArgumentError this.
Proof. apply goToTime_invalid. Qed.

Lemma C7_goToTime_rejects_invalid_time_witness :
  goToTime 100 (VString "tomorrow") Examples.radar =
  Throw InvalidArgumentError Examples.radar.
Proof. apply C7_goToTime_rejects_invalid_time; reflexivity. Defined.

(** ** Transition to a loaded layer *)

Lemma within_tolerance_iff now a :
  isWithinTimeTolerance now a = true <->
  exists closest, getClosestTime_ now (currentTime_ a) a = Some closest /\
                  Z.abs (currentTime_ a - closest) < timeTolerance_ a.
Proof.
  unfold isWithinTimeTolerance, getTimeDeviation_.
  destruct (getClosestTime_ now (currentTime_ a) a) as [c|].
  - rewrite Z.ltb_lt. split; [eauto|]. by intros (? & [= <-] & ?).
  - split; [done|]. by intros (? & [=] & _).
Qed.

Lemma transitioned_other now l a l' :
  is_frame l' a -> l' <> l ->
  layers (transitioned now l a) !! l' =
  (fun L => layer_setOpacity 0%Q (layer_stopListening L)) <$> layers a !! l'.
Proof.
  intros Hf Hne. unfold transitioned; simpl.
  rewrite lookup_alter_ne by done. rewrite hideLayers_frame by done.
  unfold hideLayer. by rewrite (proj2 (Pos.eqb_neq l' l) Hne).
Qed.

Lemma transitioned_new now l a :
  is_frame l a ->
  layers (transitioned now l a) !! l =
  (fun L => if isWithinTimeTolerance now a
            then layer_bindAttributesTo (masterLayer_ a) boundAttrs
                   (layer_stopListening L)
            else layer_setOpacity 0%Q (layer_stopListening L)) <$> layers a !! l.
Proof.
  intros Hf. unfold transitioned; simpl.
  rewrite lookup_alter_eq. rewrite hideLayers_frame by done.
  unfold hideLayer. rewrite Pos.eqb_refl.
  destruct (layers a !! l); simpl; [|done]. by destruct (isWithinTimeTolerance now a).
Qed.

(** C6, as stated, fails when "the closest available time" is the nearest
    of all timestamps: with frames at 10 and 101, the clock at 100, the
    current time 100 and a tolerance of 5, the timestamp 101 is 1 away,
    but the frame of the current time is the one at 10 (the only one in
    its tense), 90 away: the transition to it hides it. *)
Lemma C6_nearest_of_all_times_counterexample :
  let a := set_timeTolerance_ 5 (set_currentTime_ 100 Examples.straddling) in
  findClosest (currentTime_ a) (times_ a) = Some 101 /\
  Z.abs (currentTime_ a - 101) < timeTolerance_ a /\
  getCurrentLayer 100 a = Some 1%positive /\
  layers a !! 1%positive = Some Examples.shown /\
  (exists a' L', transition_ 100 (Some 1%positive) (Some 1%positive) a = Ok tt a' /\
                 layers a' !! 1%positive = Some L' /\
                 layer_bound L' = [] /\ layer_opacity L' = 0%Q) /\
  ~ (forall now old l L this,
       layers this !! l = Some L -> layer_isLoaded L = true ->
       getCurrentLayer now this = Some l ->
       exists a' L', transition_ now old (Some l) this = Ok tt a' /\
         layers a' !! l = Some L' /\
         (layer_bound L' = boundAttrs <->
          exists closest,
            findClosest (currentTime_ this) (times_ this) = Some closest /\
            Z.abs (currentTime_ this - closest) < timeTolerance_ this)).
Proof.
  intros a. split; [reflexivity|]. split; [reflexivity|]. split; [reflexivity|].
  split; [reflexivity|]. split.
  - exists (transitioned 100 1%positive a). eexists.
    split; [by apply transition__loaded with Examples.shown|].
    split; [reflexivity|]. by split.
  - intros H.
    destruct (H 100 (Some 1%positive) 1%positive Examples.shown a
                eq_refl eq_refl eq_refl) as (a' & L' & Ht & HL' & Hiff).
    rewrite (transition__loaded 100 _ 1%positive Examples.shown a eq_refl eq_refl) in Ht.
    injection Ht as <-. vm_compute in HL'. injection HL' as <-.
    assert (@nil Attr = boundAttrs) as Hb; [|discriminate Hb].
    apply Hiff. exists 101. by split.
Qed.

(** C6, amended: after a transition to a loaded frame, every other frame
    has opacity 0, and the new frame is bound to the master layer's map,
    opacity and zIndex if and only if the deviation of the current time
    from the closest available time in its tense, the one
    [getClosestTime_] returns, is strictly below [timeTolerance_];
    otherwise its opacity is 0 as well.  The tolerance of an animation
    made without options is two hours. *)
Theorem C6_transition_to_loaded_layer now old l L a :
  layers a !! l = Some L -> layer_isLoaded L = true -> is_frame l a ->
  (exists a', transition_ now old (Some l) a = Ok tt a' /\
    (forall l' L', is_frame l' a -> l' <> l -> layers a' !! l' = Some L' ->
                   layer_opacity L' = 0%Q) /\
    exists L', layers a' !! l = Some L' /\
      (layer_bound L' = boundAttrs <->
       exists closest, getClosestTime_ now (currentTime_ a) a = Some closest /\
                       Z.abs (currentTime_ a - closest) < timeTolerance_ a) /\
      (layer_bound L' = boundAttrs ->
       layer_map L' = master_map (masterLayer_ a) /\
       layer_opacity L' = master_opacity (masterLayer_ a) /\
       layer_zIndex L' = master_zIndex (masterLayer_ a)) /\
      (layer_bound L' <> boundAttrs -> layer_opacity L' = 0%Q)) /\
  (forall initialTime store master,
     timeTolerance_ (new initialTime store master None) = 2 * 60 * 60 * 1000).
Proof.
  intros H HL Hf. split; [|done].
  exists (transitioned now l a). split; [by apply transition__loaded with L|].
  split.
  - intros l' L' Hf' Hne. rewrite transitioned_other by done.
    destruct (layers a !! l'); simpl; [|done]. by intros [= <-].
  - rewrite transitioned_new by done. rewrite H; simpl.
    pose proof (within_tolerance_iff now a) as Hw.
    eexists. split; [done|].
    destruct (isWithinTimeTolerance now a); simpl.
    + split; [split; [intros _; by apply Hw|done]|].
      split; [done|]. by intros Hne.
    + split; [split; [done|]|].
      * intros Hex. apply Hw in Hex. discriminate.
      * split; [done|]. by intros _.
Qed.

Lemma C6_transition_to_loaded_layer_witness :
  (exists a', transition_ 100 (Some 1%positive) (Some 2%positive) Examples.radar = Ok tt a' /\
    (forall l' L', is_frame l' Examples.radar -> l' <> 2%positive ->
                   layers a' !! l' = Some L' -> layer_opacity L' = 0%Q) /\
    exists L', layers a' !! 2%positive = Some L' /\
      (layer_bound L' = boundAttrs <->
       exists closest,
         getClosestTime_ 100 (currentTime_ Examples.radar) Examples.radar = Some closest /\
         Z.abs (currentTime_ Examples.radar - closest) < timeTolerance_ Examples.radar) /\
      (layer_bound L' = boundAttrs ->
       layer_map L' = master_map (masterLayer_ Examples.radar) /\
       layer_opacity L' = master_opacity (masterLayer_ Examples.radar) /\
       layer_zIndex L' = master_zIndex (masterLayer_ Examples.radar)) /\
      (layer_bound L' <> boundAttrs -> layer_opacity L' = 0%Q)) /\
  (forall initialTime store master,
     timeTolerance_ (new initialTime store master None) = 2 * 60 * 60 * 1000).
Proof.
  apply (C6_transition_to_loaded_layer 100 (Some 1%positive) 2%positive Examples.hidden).
  - reflexivity.
  - reflexivity.
  - exists 20. reflexivity.
Defined.

(** ** Transition to a layer that is still loading *)

Lemma bind_ret_tt (m : M unit) a : bind m (fun _ => ret tt) a = m a.
Proof. unfold bind, ret. by destruct (m a) as [[] ?|? ?]. Qed.

Lemma filter_listener_stopped l (cbs : list (LayerId * option LayerId)) :
  List.filter (is_listener_of l)
    (List.filter (fun cb => negb (is_listener_of l cb)) cbs) = [].
Proof.
  induction cbs as [|cb cbs IH]; simpl; [done|].
  destruct (is_listener_of l cb) eqn:E; simpl; [done|]. by rewrite E.
Qed.

Lemma filter_remove_first p cb (cbs : list (LayerId * option LayerId)) :
  p cb = true ->
  List.filter p (remove_first cb cbs) = remove_first cb (List.filter p cbs).
Proof.
  intros Hp. induction cbs as [|x cbs IH]; simpl; [done|].
  case_bool_decide as Hx.
  - subst x. rewrite Hp; simpl. by rewrite bool_decide_eq_true_2.
  - simpl. destruct (p x); simpl; [|done].
    rewrite bool_decide_eq_false_2 by done. by rewrite IH.
Qed.

Lemma awaiting_layers old l a : layers (awaiting old l a) = layers a.
Proof. unfold awaiting. by destruct (hasMap (masterLayer_ a)). Qed.

Lemma awaiting_listener old l a :
  List.filter (is_listener_of l) (layerLoadListeners (awaiting old l a)) = [(l, old)].
Proof.
  unfold awaiting.
  assert (layerLoadListeners
            (if hasMap (masterLayer_ a)
             then set_deferred (deferred a ++ [l]) a
             else set_mapSetListeners (mapSetListeners a ++ [l]) a)
          = layerLoadListeners a) as -> by by destruct (hasMap (masterLayer_ a)).
  simpl. rewrite List.filter_app, filter_listener_stopped. simpl.
  unfold is_listener_of; simpl. by rewrite Pos.eqb_refl.
Qed.

(** The state in which the callback of a layer's 'load' event runs. *)
Lemma on_layer_load_single now l old b :
  List.filter (is_listener_of l) (layerLoadListeners b) = [(l, old)] ->
  on_layer_load now l b =
  layer_load_callback now old l
    (set_layerLoadListeners (remove_first (l, old) (layerLoadListeners b))
       (set_layers (alter layer_markLoaded l (layers b)) b)).
Proof.
  intros H. unfold on_layer_load, update_layer, bind at 1, modify, gets.
  unfold bind at 1. simpl. rewrite H. simpl.
  unfold bind at 1. simpl. apply bind_ret_tt.
Qed.

(** C4: a transition to a layer that is not loaded yet displays nothing:
    the store of layers is as before.  Exactly one listener waits for the
    layer's 'load' event; when the event fires the listener is removed,
    and the transition runs again if and only if the layer is still the
    current layer. *)
Theorem C4_transition_waits_for_load now old l L a :
  layers a !! l = Some L -> layer_isLoaded L = false ->
  exists a', transition_ now old (Some l) a = Ok tt a' /\
    layers a' = layers a /\
    List.filter (is_listener_of l) (layerLoadListeners a') = [(l, old)] /\
    forall now' b,
      List.filter (is_listener_of l) (layerLoadListeners b) = [(l, old)] ->
      let b' := set_layerLoadListeners (remove_first (l, old) (layerLoadListeners b))
                  (set_layers (alter layer_markLoaded l (layers b)) b) in
      List.filter (is_listener_of l) (layerLoadListeners b') = [] /\
      on_layer_load now' l b =
        if bool_decide (getCurrentLayer now' b = Some l)
        then transition_ now' old (Some l) b'
        else Ok tt b'.
Proof.
  intros H HL. exists (awaiting old l a).
  split; [by apply transition__not_loaded with L|].
  split; [apply awaiting_layers|]. split; [apply awaiting_listener|].
  intros now' b Hb b'. split.
  - subst b'. simpl. rewrite filter_remove_first.
    + rewrite Hb. simpl. by rewrite bool_decide_eq_true_2.
    + unfold is_listener_of; simpl. apply Pos.eqb_refl.
  - rewrite (on_layer_load_single _ _ _ _ Hb). fold b'.
    unfold layer_load_callback, bind, gets.
    change (getCurrentLayer now' b') with (getCurrentLayer now' b).
    by case_bool_decide.
Qed.

Lemma C4_transition_waits_for_load_witness :
  exists a', transition_ 100 (Some 1%positive) (Some 2%positive) Examples.radar_loading = Ok tt a' /\
    layers a' = layers Examples.radar_loading /\
    List.filter (is_listener_of 2%positive) (layerLoadListeners a') =
      [(2%positive, Some 1%positive)] /\
    forall now' b,
      List.filter (is_listener_of 2%positive) (layerLoadListeners b) =
        [(2%positive, Some 1%positive)] ->
      let b' := set_layerLoadListeners
                  (remove_first (2%positive, Some 1%positive) (layerLoadListeners b))
                  (set_layers (alter layer_markLoaded 2%positive (layers b)) b) in
      List.filter (is_listener_of 2%positive) (layerLoadListeners b') = [] /\
      on_layer_load now' 2%positive b =
        if bool_decide (getCurrentLayer now' b = Some 2%positive)
        then transition_ now' (Some 1%positive) (Some 2%positive) b'
        else Ok tt b'.
Proof.
  apply (C4_transition_waits_for_load 100 (Some 1%positive) 2%positive Examples.loading);
    reflexivity.
Defined.

(** ** [goToTime] before the times are loaded *)

Lemma trigger_loadTimes_single now times timeLayers b :
  loadTimesListeners b = 1%nat ->
  trigger_loadTimes now times timeLayers b =
  goToTime now (VNumber (currentTime_ b))
    (set_loadTimesListeners 0
       (set_triggered (triggered b ++ [LoadTimes times timeLayers]) b)).
Proof.
  intros H. unfold trigger_loadTimes, trigger, bind at 1, modify, gets.
  unfold bind at 1. simpl. rewrite H. simpl.
  unfold bind at 1, modify. simpl. rewrite H. simpl.
  unfold bind at 1, gets. simpl. apply bind_ret_tt.
Qed.

Lemma goToTime_loaded_keeps_listeners now time a :
  times_ a <> [] ->
  loadTimesListeners (state_of (goToTime now (VNumber time) a)) = loadTimesListeners a.
Proof.
  intros Hne. rewrite goToTime_number.
  destruct (times_ a) as [|x xs] eqn:E; [done|]. simpl.
  assert (keeps loadTimesListeners
            (transition_ now (getCurrentLayer now a) (getLayerForTime_ now time a) ;;
             trigger (ChangeTime time))) as Hk.
  { apply keeps_bind; [apply keeps_transition_; frame|intros; unfold trigger; keeps_tac]. }
  by rewrite Hk.
Qed.

(** C5: a valid time passed to [goToTime] before any times are loaded is
    recorded as the current time and 'change:time' is triggered with it;
    nothing else changes but one more listener for 'load:times', so no
    transition is attempted.  When 'load:times' fires on an animation
    with one such listener, [goToTime] runs once, with the recorded
    current time, and with the listener removed; on a loaded timeline no
    listener is left afterwards. *)
Theorem C5_goToTime_before_times_loaded now time v a :
  times_ a = [] -> v = VNumber time \/ v = VDate (Some time) ->
  goToTime now v a =
    Ok tt (set_triggered (triggered a ++ [ChangeTime time])
             (set_loadTimesListeners (S (loadTimesListeners a))
                (set_currentTime_ time a))) /\
  forall now' times timeLayers b,
    loadTimesListeners b = 1%nat ->
    let b' := set_loadTimesListeners 0
                (set_triggered (triggered b ++ [LoadTimes times timeLayers]) b) in
    trigger_loadTimes now' times timeLayers b = goToTime now' (getCurrentTime b) b' /\
    (times_ b <> [] ->
     loadTimesListeners (state_of (trigger_loadTimes now' times timeLayers b)) = 0%nat).
Proof.
  intros Ht Hv. split.
  - assert (goToTime now v a = goToTime now (VNumber time) a) as ->
      by (destruct Hv as [->| ->]; reflexivity).
    rewrite goToTime_number, Ht. reflexivity.
  - intros now' times timeLayers b Hb b'.
    rewrite (trigger_loadTimes_single _ _ _ _ Hb). fold b'. split; [done|].
    intros Hne. by rewrite goToTime_loaded_keeps_listeners.
Qed.

Lemma C5_goToTime_before_times_loaded_witness :
  goToTime 100 (VNumber 42) Examples.fresh =
    Ok tt (set_triggered (triggered Examples.fresh ++ [ChangeTime 42])
             (set_loadTimesListeners (S (loadTimesListeners Examples.fresh))
                (set_currentTime_ 42 Examples.fresh))) /\
  forall now' times timeLayers b,
    loadTimesListeners b = 1%nat ->
    let b' := set_loadTimesListeners 0
                (set_triggered (triggered b ++ [LoadTimes times timeLayers]) b) in
    trigger_loadTimes now' times timeLayers b = goToTime now' (getCurrentTime b) b' /\
    (times_ b <> [] ->
     loadTimesListeners (state_of (trigger_loadTimes now' times timeLayers b)) = 0%nat).
Proof.
  apply (C5_goToTime_before_times_loaded 100 42 (VNumber 42) Examples.fresh).
  - reflexivity.
  - left. reflexivity.
Defined.

(** ** The frame [goToTime] selects *)

(** C1, as stated, fails: with frames at 10 and 101 and the clock at 100,
    the target 100 is not in the future, so only the frame at 10 is
    considered, although the frame at 101 is nearer. *)
Lemma C1_nearest_of_all_frames_counterexample :
  times_ Examples.straddling = [10; 101] /\
  getClosestTime_ 100 100 Examples.straddling = Some 10 /\
  Z.abs (101 - 100) < Z.abs (10 - 100) /\
  ~ (forall now time this, times_ this <> [] ->
       exists closest, getClosestTime_ now time this = Some closest /\
         forall x, x ∈ times_ this -> Z.abs (closest - time) <= Z.abs (x - time)).
Proof.
  split; [reflexivity|]. split; [reflexivity|]. split; [lia|].
  intros H. destruct (H 100 100 Examples.straddling) as (c & Hc & Hmin); [done|].
  injection Hc as <-. specialize (Hmin 101). 
  assert (101 ∈ times_ Examples.straddling) as Hin by (right; left).
  specialize (Hmin Hin). lia.
Qed.

(** C1, amended: among the frames in the same tense as the target (both
    after the clock reading, or both not after it), [getClosestTime_]
    returns one with the least distance to the target whenever there is
    such a frame; [getLayerForTime_] returns the layer stored under that
    timestamp, and [goToTime] records the time, transitions from the
    current layer to that layer and triggers 'change:time'. *)
Theorem C1_nearest_frame_in_same_tense now time this x :
  x ∈ times_ this -> isTimeInSameTenseAsTarget now time x = true ->
  exists closest,
    getClosestTime_ now time this = Some closest /\
    closest ∈ times_ this /\
    isTimeInSameTenseAsTarget now time closest = true /\
    (forall y, y ∈ times_ this -> isTimeInSameTenseAsTarget now time y = true ->
               Z.abs (closest - time) <= Z.abs (y - time)) /\
    getLayerForTime_ now time this = timeLayers_ this !! closest /\
    forall v, v = VNumber time \/ v = VDate (Some time) ->
      goToTime now v this =
      (transition_ now (getCurrentLayer now this) (timeLayers_ this !! closest) ;;
       trigger (ChangeTime time)) (set_currentTime_ time this).
Proof.
  intros Hx Hxt.
  destruct (getClosestTime_ now time this) as [closest|] eqn:E.
  - exists closest. split; [done|].
    destruct (getClosestTime__Some _ _ _ _ E) as (Hin & Htense & Hmin).
    repeat split; try done.
    + unfold getLayerForTime_. by rewrite E.
    + intros v Hv.
      assert (goToTime now v this = goToTime now (VNumber time) this) as ->
        by (destruct Hv as [->| ->]; reflexivity).
      rewrite goToTime_number. unfold getLayerForTime_ at 1. rewrite E.
      destruct (times_ this) as [|? ?]; [|done]. by apply elem_of_nil in Hx.
  - pose proof (getClosestTime__None _ _ _ E x Hx) as Hf. congruence.
Qed.

Lemma C1_nearest_frame_in_same_tense_witness :
  exists closest,
    getClosestTime_ 100 18 Examples.radar = Some closest /\
    closest ∈ times_ Examples.radar /\
    isTimeInSameTenseAsTarget 100 18 closest = true /\
    (forall y, y ∈ times_ Examples.radar -> isTimeInSameTenseAsTarget 100 18 y = true ->
               Z.abs (closest - 18) <= Z.abs (y - 18)) /\
    getLayerForTime_ 100 18 Examples.radar = timeLayers_ Examples.radar !! closest /\
    forall v, v = VNumber 18 \/ v = VDate (Some 18) ->
      goToTime 100 v Examples.radar =
      (transition_ 100 (getCurrentLayer 100 Examples.radar)
         (timeLayers_ Examples.radar !! closest) ;;
       trigger (ChangeTime 18)) (set_currentTime_ 18 Examples.radar).
Proof.
  apply (C1_nearest_frame_in_same_tense 100 18 Examples.radar 30).
  - right. right. left.
  - reflexivity.
Defined.

(** The target is ahead of the clock and every frame is behind it: no
    frame is selected, and the transition fails on the undefined layer
    after the time was recorded. *)
Example goToTime_without_frame_in_tense :
  getClosestTime_ 100 150 Examples.radar = None /\
  goToTime 100 (VNumber 150) Examples.radar = Throw TypeError Examples.radar_ahead.
Proof. split; reflexivity. Qed.

(** ** The ordered timeline *)

Lemma StronglySorted_le_lt (l : list Z) :
  StronglySorted Z.le l -> NoDup l -> StronglySorted Z.lt l.
Proof.
  induction 1 as [|x l Hs IH Hx]; intros Hnd; [constructor|].
  apply NoDup_cons in Hnd as [Hnin Hnd]. constructor; [by apply IH|].
  rewrite Forall_forall in Hx |- *. intros y Hy.
  assert (x <> y) by (intros ->; done). specialize (Hx y Hy). lia.
Qed.

Lemma getOrderedTimesFromLayers__perm (timeLayers : gmap Z LayerId) :
  getOrderedTimesFromLayers_ timeLayers ≡ₚ (map_to_list timeLayers).*1.
Proof. apply merge_sort_Permutation. Qed.

Lemma getOrderedTimesFromLayers__NoDup (timeLayers : gmap Z LayerId) :
  NoDup (getOrderedTimesFromLayers_ timeLayers).
Proof. rewrite getOrderedTimesFromLayers__perm. apply NoDup_fst_map_to_list. Qed.

Lemma getOrderedTimesFromLayers__sorted (timeLayers : gmap Z LayerId) :
  Sorted Z.lt (getOrderedTimesFromLayers_ timeLayers).
Proof.
  apply StronglySorted_Sorted, StronglySorted_le_lt.
  - apply (StronglySorted_merge_sort Z.le).
  - apply getOrderedTimesFromLayers__NoDup.
Qed.

Lemma elem_of_getOrderedTimesFromLayers_ (timeLayers : gmap Z LayerId) time :
  time ∈ getOrderedTimesFromLayers_ timeLayers <-> is_Some (timeLayers !! time).
Proof.
  rewrite getOrderedTimesFromLayers__perm, list_elem_of_fmap. split.
  - intros ([k l] & -> & Hin). exists l. by apply elem_of_map_to_list.
  - intros [l Hl]. exists (time, l). split; [done|]. by apply elem_of_map_to_list.
Qed.

Lemma keeps_run_loadTimes_callbacks {X} (f : t -> X) now n :
  transition_frame f ->
  (forall x a, f (set_currentTime_ x a) = f a) ->
  (forall x a, f (set_loadTimesListeners x a) = f a) ->
  (forall x a, f (set_triggered x a) = f a) ->
  keeps f (run_loadTimes_callbacks now n).
Proof.
  intros Hf H1 H2 H3. induction n as [|n IH]; simpl; [apply keeps_ret|].
  apply keeps_bind; [apply keeps_modify; intros; apply H2|intros].
  apply keeps_bind; [apply keeps_gets|intros].
  apply keeps_bind; [by apply keeps_goToTime|intros]. apply IH.
Qed.

Lemma keeps_run_op {X} (f : t -> X) now op :
  transition_frame f ->
  (forall x a, f (set_currentTime_ x a) = f a) ->
  (forall x a, f (set_loadTimesListeners x a) = f a) ->
  (forall x a, f (set_triggered x a) = f a) ->
  (forall x a, f (set_timeTolerance_ x a) = f a) ->
  keeps f (run_op now op).
Proof.
  intros Hf H1 H2 H3 H4.
  destruct op; simpl; unfold next, previous, setTimeTolerance;
    repeat first
      [ apply keeps_goToTime; assumption
      | keeps_step
      | apply keeps_modify; intros; apply H4 ].
Qed.

Lemma run_ops_keeps {X} (f : t -> X) ops :
  transition_frame f ->
  (forall x a, f (set_currentTime_ x a) = f a) ->
  (forall x a, f (set_loadTimesListeners x a) = f a) ->
  (forall x a, f (set_triggered x a) = f a) ->
  (forall x a, f (set_timeTolerance_ x a) = f a) ->
  forall a, f (run_ops ops a) = f a.
Proof.
  intros Hf H1 H2 H3 H4. induction ops as [|[now op] ops IH]; intros a; simpl; [done|].
  rewrite IH. by apply keeps_run_op.
Qed.

Lemma on_loader_loadTimes_listening now times timeLayers a :
  loaderListening a = true ->
  on_loader_loadTimes now times timeLayers a =
  (refreshCurrentLayer_ now ;; trigger_loadTimes now times timeLayers)
    (set_times_ (getOrderedTimesFromLayers_ timeLayers)
       (set_timeLayers_ timeLayers (set_loaderListening false a))).
Proof.
  intros Hl. unfold on_loader_loadTimes, bind at 1, gets. rewrite Hl. reflexivity.
Qed.

Lemma keeps_loadTimes_handler {X} (f : t -> X) now times timeLayers :
  transition_frame f ->
  (forall x a, f (set_currentTime_ x a) = f a) ->
  (forall x a, f (set_loadTimesListeners x a) = f a) ->
  (forall x a, f (set_triggered x a) = f a) ->
  keeps f (refreshCurrentLayer_ now ;; trigger_loadTimes now times timeLayers).
Proof.
  intros Hf H1 H2 H3. unfold refreshCurrentLayer_, trigger_loadTimes, trigger.
  repeat first
    [ apply keeps_goToTime; assumption
    | apply keeps_run_loadTimes_callbacks; assumption
    | keeps_step
    | apply keeps_modify; intros; apply H3 ].
Qed.

Lemma on_loader_loadTimes_times now times timeLayers a :
  loaderListening a = true ->
  times_ (state_of (on_loader_loadTimes now times timeLayers a)) =
    getOrderedTimesFromLayers_ timeLayers /\
  timeLayers_ (state_of (on_loader_loadTimes now times timeLayers a)) = timeLayers.
Proof.
  intros Hl. rewrite on_loader_loadTimes_listening by done. split.
  - etransitivity; [apply (keeps_loadTimes_handler times_); frame|done].
  - etransitivity; [apply (keeps_loadTimes_handler timeLayers_); frame|done].
Qed.

(** C2: when the loader's 'load:times' handler has run, the timeline
    [getTimes] returns is strictly ascending and holds exactly the keys
    of the frames hash, and any run of [next], [previous], [goToTime] and
    [setTimeTolerance] calls, failed ones included, leaves the timeline
    and the frames as they are. *)
Theorem C2_timeline_ordered_and_preserved now times timeLayers ops a :
  loaderListening a = true ->
  let loaded := state_of (on_loader_loadTimes now times timeLayers a) in
  timeLayers_ loaded = timeLayers /\
  Sorted Z.lt (getTimes loaded) /\
  (forall time, time ∈ getTimes loaded <-> is_Some (timeLayers !! time)) /\
  getTimes (run_ops ops loaded) = getTimes loaded /\
  timeLayers_ (run_ops ops loaded) = timeLayers_ loaded /\
  getTimes (state_of (destroy (run_ops ops loaded))) = [].
Proof.
  intros Hl loaded.
  destruct (on_loader_loadTimes_times now times timeLayers a Hl) as [Ht Htl].
  fold loaded in Ht, Htl. unfold getTimes. rewrite Ht.
  split; [done|]. split; [apply getOrderedTimesFromLayers__sorted|].
  split; [apply elem_of_getOrderedTimesFromLayers_|].
  split; [|split; [|done]].
  - rewrite <- Ht. apply (run_ops_keeps times_); frame.
  - apply (run_ops_keeps timeLayers_); frame.
Qed.

Lemma C2_timeline_ordered_and_preserved_witness :
  let ops := [(100, OpGoToTime (VNumber 25)); (101, OpNext); (102, OpPrevious);
              (103, OpSetTimeTolerance 5); (104, OpGoToTime (VNumber 500))] in
  let loaded :=
    state_of (on_loader_loadTimes 100 [30; 10; 20] Examples.radar_frames Examples.fresh) in
  timeLayers_ loaded = Examples.radar_frames /\
  Sorted Z.lt (getTimes loaded) /\
  (forall time, time ∈ getTimes loaded <-> is_Some (Examples.radar_frames !! time)) /\
  getTimes (run_ops ops loaded) = getTimes loaded /\
  timeLayers_ (run_ops ops loaded) = timeLayers_ loaded /\
  getTimes (state_of (destroy (run_ops ops loaded))) = [].
Proof.
  intros ops.
  apply (C2_timeline_ordered_and_preserved 100 [30; 10; 20] Examples.radar_frames ops
           Examples.fresh).
  reflexivity.
Defined.

(** ** Cycling through the frames *)

Lemma indexOf_from_lookup (l : list Z) : forall k i x,
  NoDup l -> l !! i = Some x -> indexOf_from k x l = k + Z.of_nat i.
Proof.
  induction l as [|y l IH]; intros k i x Hnd Hi; [done|].
  apply NoDup_cons in Hnd as [Hnin Hnd]. destruct i as [|i]; simpl in *.
  - injection Hi as ->. rewrite Z.eqb_refl. lia.
  - destruct (Z.eqb_spec y x) as [->|Hne].
    + exfalso. apply Hnin. by apply list_elem_of_lookup_2 with i.
    + rewrite (IH (k + 1) i x) by done. lia.
Qed.

Lemma at_index_of_nat (l : list Z) (i : nat) : at_index l (Z.of_nat i) = l !! i.
Proof.
  unfold at_index. destruct (Z.ltb_spec (Z.of_nat i) 0); [lia|].
  by rewrite Nat2Z.id.
Qed.

Lemma getLayerIndex__lookup now a closest i :
  NoDup (times_ a) ->
  getClosestTime_ now (currentTime_ a) a = Some closest ->
  times_ a !! i = Some closest ->
  getLayerIndex_ now a = Z.of_nat i.
Proof.
  intros Hnd Hc Hi. unfold getLayerIndex_. rewrite Hc. simpl.
  by rewrite (indexOf_from_lookup _ 0 i closest).
Qed.

Lemma getNextTime__cycle now a closest i :
  NoDup (times_ a) ->
  getClosestTime_ now (currentTime_ a) a = Some closest ->
  times_ a !! i = Some closest ->
  getNextTime_ now a = times_ a !! ((i + 1) mod length (times_ a))%nat.
Proof.
  intros Hnd Hc Hi. unfold getNextTime_, isCurrentLayerLast_.
  rewrite (getLayerIndex__lookup _ _ _ _ Hnd Hc Hi).
  pose proof (lookup_lt_Some _ _ _ Hi) as Hlt.
  destruct (Z.eqb_spec (Z.of_nat i) (Z.of_nat (length (times_ a)) - 1)) as [He|Hne].
  - replace (i + 1)%nat with (length (times_ a)) by lia.
    rewrite Nat.Div0.mod_same. apply (at_index_of_nat _ 0).
  - rewrite Nat.mod_small by lia.
    replace (Z.of_nat i + 1) with (Z.of_nat (i + 1)) by lia. apply at_index_of_nat.
Qed.

Lemma getPreviousTime__cycle now a closest i :
  NoDup (times_ a) ->
  getClosestTime_ now (currentTime_ a) a = Some closest ->
  times_ a !! i = Some closest ->
  getPreviousTime_ now a =
    times_ a !! ((i + length (times_ a) - 1) mod length (times_ a))%nat.
Proof.
  intros Hnd Hc Hi. unfold getPreviousTime_, isCurrentLayerFirst_.
  rewrite (getLayerIndex__lookup _ _ _ _ Hnd Hc Hi).
  pose proof (lookup_lt_Some _ _ _ Hi) as Hlt.
  destruct (Z.eqb_spec (Z.of_nat i) 0) as [He|Hne].
  - replace i with 0%nat by lia. simpl.
    rewrite Nat.mod_small by lia. rewrite last_lookup. f_equal. lia.
  - replace (i + length (times_ a) - 1)%nat with ((i - 1) + 1 * length (times_ a))%nat by lia.
    rewrite Nat.Div0.mod_add, Nat.mod_small by lia.
    replace (Z.of_nat i - 1) with (Z.of_nat (i - 1)) by lia. apply at_index_of_nat.
Qed.

Lemma getClosestTime__times now time a a' :
  times_ a' = times_ a -> getClosestTime_ now time a' = getClosestTime_ now time a.
Proof. unfold getClosestTime_. by intros ->. Qed.

(** [goToTime] to the timestamp of a frame succeeds and shows that frame. *)
Lemma goToTime_frame now target a :
  timeline_loaded a -> target ∈ times_ a ->
  exists a', goToTime now (VNumber target) a = Ok tt a' /\
    currentTime_ a' = target /\
    (forall now', getClosestTime_ now' target a' = Some target) /\
    getTimes a' = getTimes a.
Proof.
  intros (Ht & Hne & Hstore) Hin. rewrite goToTime_number.
  assert (Nat.eqb (length (times_ a)) 0 = false) as ->
    by (by destruct (times_ a)).
  unfold getLayerForTime_ at 1.
  rewrite (getClosestTime__member now target a Hin).
  assert (is_Some (timeLayers_ a !! target)) as [l Hl].
  { apply elem_of_getOrderedTimesFromLayers_. by rewrite <- Ht. }
  rewrite Hl.
  destruct (transition__ok now (getCurrentLayer now a) l (set_currentTime_ target a))
    as [a1 Ha1]; [by apply (Hstore target)|].
  pose proof (keeps_transition_ currentTime_ now (getCurrentLayer now a) (Some l)
                ltac:(frame) (set_currentTime_ target a)) as Hcur.
  pose proof (keeps_transition_ times_ now (getCurrentLayer now a) (Some l)
                ltac:(frame) (set_currentTime_ target a)) as Htimes.
  rewrite Ha1 in Hcur, Htimes. simpl in Hcur, Htimes.
  eexists. unfold bind. rewrite Ha1. split; [reflexivity|]. simpl.
  split; [done|]. split; [|done]. intros now'.
  rewrite (getClosestTime__times now' target a); [|done].
  by apply getClosestTime__member.
Qed.

(** C3, as stated, fails: with all frames behind the clock and the
    current time ahead of it (the state a [goToTime] to a future time
    leaves behind), no frame is the current one, and [previous] changes
    nothing: the current time stays off the timeline. *)
Lemma C3_previous_without_current_frame_counterexample :
  times_ Examples.radar_ahead = [10; 20; 30] /\
  currentTime_ Examples.radar_ahead = 150 /\
  previous 100 Examples.radar_ahead = Ok tt Examples.radar_ahead /\
  ~ (forall now a, times_ a <> [] ->
       exists target, target ∈ times_ a /\
                      currentTime_ (state_of (previous now a)) = target).
Proof.
  split; [reflexivity|]. split; [reflexivity|]. split; [reflexivity|].
  intros H. destruct (H 100 Examples.radar_ahead) as (target & Hin & Hcur); [done|].
  change (150 = target) in Hcur. subst target.
  repeat (apply elem_of_cons in Hin as [Hin|Hin]; [discriminate|]).
  by apply elem_of_nil in Hin.
Qed.

(** C3, amended: on a loaded timeline whose current time has a frame in
    its tense, the current frame being the [i]-th of [n], [next] moves
    the current time to frame [(i + 1) mod n] and [previous] to frame
    [(i + n - 1) mod n], each time provided that the timestamp of that
    frame is not 0; the frame moved to is then the current one, at any
    later clock reading, and the timeline is unchanged. *)
Theorem C3_frames_are_cycled now a closest i :
  timeline_loaded a ->
  getClosestTime_ now (currentTime_ a) a = Some closest ->
  times_ a !! i = Some closest ->
  (forall target,
     times_ a !! ((i + 1) mod length (times_ a))%nat = Some target -> target <> 0 ->
     exists a', next now a = Ok tt a' /\ currentTime_ a' = target /\
                (forall now', getClosestTime_ now' target a' = Some target) /\
                getTimes a' = getTimes a) /\
  (forall target,
     times_ a !! ((i + length (times_ a) - 1) mod length (times_ a))%nat = Some target ->
     target <> 0 ->
     exists a', previous now a = Ok tt a' /\ currentTime_ a' = target /\
                (forall now', getClosestTime_ now' target a' = Some target) /\
                getTimes a' = getTimes a).
Proof.
  intros Hwf Hc Hi.
  assert (NoDup (times_ a)) as Hnd.
  { destruct Hwf as (-> & _). apply getOrderedTimesFromLayers__NoDup. }
  split; intros target Ht Hnz.
  - unfold next, bind, gets.
    rewrite (getNextTime__cycle _ _ _ _ Hnd Hc Hi), Ht. simpl.
    rewrite (proj2 (Z.eqb_neq target 0) Hnz). simpl.
    apply goToTime_frame; [done|]. by apply list_elem_of_lookup_2 in Ht.
  - unfold previous, bind, gets.
    rewrite (getPreviousTime__cycle _ _ _ _ Hnd Hc Hi), Ht. simpl.
    rewrite (proj2 (Z.eqb_neq target 0) Hnz). simpl.
    apply goToTime_frame; [done|]. by apply list_elem_of_lookup_2 in Ht.
Qed.

Lemma radar_timeline_loaded : timeline_loaded Examples.radar.
Proof.
  split; [reflexivity|]. split; [done|].
  change (map_Forall (fun (_ : Z) layer => is_Some (layers Examples.radar !! layer))
            (timeLayers_ Examples.radar)).
  apply (bool_decide_unpack _). vm_compute. exact I.
Qed.

Lemma C3_frames_are_cycled_witness :
  (forall target,
     times_ Examples.radar !! ((2 + 1) mod length (times_ Examples.radar))%nat = Some target ->
     target <> 0 ->
     exists a', next 100 (set_currentTime_ 29 Examples.radar) = Ok tt a' /\
                currentTime_ a' = target /\
                (forall now', getClosestTime_ now' target a' = Some target) /\
                getTimes a' = getTimes Examples.radar) /\
  (forall target,
     times_ Examples.radar !!
       ((2 + length (times_ Examples.radar) - 1) mod length (times_ Examples.radar))%nat
       = Some target ->
     target <> 0 ->
     exists a', previous 100 (set_currentTime_ 29 Examples.radar) = Ok tt a' /\
                currentTime_ a' = target /\
                (forall now', getClosestTime_ now' target a' = Some target) /\
                getTimes a' = getTimes Examples.radar).
Proof.
  apply (C3_frames_are_cycled 100 (set_currentTime_ 29 Examples.radar) 30 2).
  - apply radar_timeline_loaded.
  - reflexivity.
  - reflexivity.
Defined.

(** From the last frame [next] loops back to the first, and [previous]
    goes one frame back. *)
Example radar_cycle :
  currentTime_ (state_of (next 100 (set_currentTime_ 29 Examples.radar))) = 10 /\
  currentTime_ (state_of (previous 100 (set_currentTime_ 29 Examples.radar))) = 20 /\
  currentTime_ (state_of (previous 100 Examples.radar)) = 30.
Proof. repeat split. Qed.

End TileAnimationSpec.

(** * Further properties of the tile animation *)

Module PlaybackSpec.
Import Js TileAnimation TileAnimationSpec Playback.
Local Open Scope anim_scope.

(** ** Before the times are loaded *)

Lemma getLayerIndex__empty now a : times_ a = [] -> getLayerIndex_ now a = -1.
Proof. intros H. unfold getLayerIndex_, getClosestTime_. by rewrite H. Qed.

Lemma next_previous_empty now a :
  times_ a = [] -> next now a = Ok tt a /\ previous now a = Ok tt a.
Proof.
  intros H. unfold next, previous, bind, gets, getNextTime_, getPreviousTime_,
    isCurrentLayerLast_, isCurrentLayerFirst_.
  rewrite (getLayerIndex__empty now a H), H. by split.
Qed.

(** X1: while no times are loaded, [next()] and [previous()] do nothing at
    all: they return with the animation unchanged. *)
Theorem X1_next_previous_without_times now a :
  times_ a = [] -> next now a = Ok tt a /\ previous now a = Ok tt a.
Proof. apply next_previous_empty. Qed.

Lemma X1_next_previous_without_times_witness :
  next 100 Examples.fresh = Ok tt Examples.fresh /\
  previous 100 Examples.fresh = Ok tt Examples.fresh.
Proof. apply X1_next_previous_without_times. reflexivity. Defined.

(** ** The events of [goToTime] *)

Lemma keeps_before_trigger {X} (f : t -> X) now time a :
  transition_frame f ->
  (forall x a, f (set_loadTimesListeners x a) = f a) ->
  keeps f (if Nat.eqb (length (times_ a)) 0
           then listenToOnce_loadTimes
           else transition_ now (getCurrentLayer now a) (getLayerForTime_ now time a)).
Proof.
  intros Hf H. destruct (Nat.eqb _ _).
  - apply keeps_modify. intros. apply H.
  - by apply keeps_transition_.
Qed.

(** X3: [goToTime] triggers 'change:time' exactly when it returns: once,
    as the last event, with the time it was given; a call that throws
    triggers no event. *)
Theorem X3_change_time_iff_returned now v a :
  match goToTime now v a with
  | Ok _ a' =>
      exists time, (v = VNumber time \/ v = VDate (Some time)) /\
                   currentTime_ a' = time /\
                   triggered a' = triggered a ++ [ChangeTime time]
  | Throw _ a' => triggered a' = triggered a
  end.
Proof.
  assert (forall time,
            match goToTime now (VNumber time) a with
            | Ok _ a' => currentTime_ a' = time /\
                         triggered a' = triggered a ++ [ChangeTime time]
            | Throw _ a' => triggered a' = triggered a
            end) as Hnum.
  { intros time. rewrite goToTime_number. unfold bind.
    pose proof (keeps_before_trigger triggered now time a ltac:(frame) ltac:(frame)
                  (set_currentTime_ time a)) as Ht.
    pose proof (keeps_before_trigger currentTime_ now time a ltac:(frame) ltac:(frame)
                  (set_currentTime_ time a)) as Hc.
    match type of Ht with
    | triggered (state_of ?r) = _ => destruct r as [[] a1|e a1]
    end; simpl in *; [|done].
    by rewrite Ht, Hc. }
  destruct v as [| |b|n| |s|[ms|]]; try done.
  - specialize (Hnum n). destruct (goToTime now (VNumber n) a); [|done].
    destruct Hnum as [Hc Ht]. exists n. split; [by left|done].
  - specialize (Hnum ms). rewrite goToTime_date.
    destruct (goToTime now (VNumber ms) a); [|done].
    destruct Hnum as [Hc Ht]. exists ms. split; [by right|done].
Qed.

(** X4: on a loaded timeline, a time that has no frame in its tense (a
    time ahead of the clock when all frames are behind it, or the other
    way round) makes [goToTime] throw a TypeError, on the undefined layer;
    the time is recorded all the same, nothing else changes, and no
    'change:time' is triggered. *)
Theorem X4_goToTime_without_frame_in_tense now time v a :
  times_ a <> [] -> v = VNumber time \/ v = VDate (Some time) ->
  (forall x, x ∈ times_ a -> isTimeInSameTenseAsTarget now time x = false) ->
  goToTime now v a = Throw TypeError (set_currentTime_ time a).
Proof.
  intros Hne Hv Hnone.
  assert (goToTime now v a = goToTime now (VNumber time) a) as ->
    by (destruct Hv as [->| ->]; reflexivity).
  rewrite goToTime_number.
  assert (Nat.eqb (length (times_ a)) 0 = false) as -> by (by destruct (times_ a)).
  assert (getLayerForTime_ now time a = None) as ->; [|done].
  unfold getLayerForTime_.
  destruct (getClosestTime_ now time a) as [c|] eqn:E; [|done].
  apply getClosestTime__Some in E as (Hin & Ht & _). rewrite (Hnone c Hin) in Ht. done.
Qed.

Lemma X4_goToTime_without_frame_in_tense_witness :
  goToTime 100 (VDate (Some 150)) Examples.radar =
  Throw TypeError (set_currentTime_ 150 Examples.radar).
Proof.
  apply X4_goToTime_without_frame_in_tense.
  - done.
  - right. reflexivity.
  - intros x Hx. repeat (apply elem_of_cons in Hx as [->|Hx]; [reflexivity|]).
    by apply elem_of_nil in Hx.
Defined.

(** ** What no operation does to a layer object *)

Lemma alter_proj {X} (p : Layer -> X) (g : Layer -> Layer) k
    (S : gmap LayerId Layer) l :
  (forall L, p (g L) = p L) -> p <$> alter g k S !! l = p <$> S !! l.
Proof.
  intros H. destruct (decide (k = l)) as [->|Hne].
  - rewrite lookup_alter_eq. destruct (S !! l); simpl; [|done]. by rewrite H.
  - by rewrite lookup_alter_ne.
Qed.

Lemma fold_alter_proj {X} (p : Layer -> X) (h : LayerId -> Layer -> Layer)
    (ids : list LayerId) :
  (forall k L, p (h k L) = p L) ->
  forall (S : gmap LayerId Layer) l,
    p <$> fold_left (fun S k => alter (h k) k S) ids S !! l = p <$> S !! l.
Proof.
  intros H. induction ids as [|k ids IH]; intros S l; cbn [fold_left]; [done|].
  rewrite IH. by apply alter_proj.
Qed.

Lemma transition__undefined_layer now old n a :
  layers a !! n = None -> transition_ now old (Some n) a = Throw TypeError a.
Proof.
  intros H. unfold transition_, preloadTimeLayer_, bind, isLoaded. by rewrite H.
Qed.

Lemma keeps_transition__proj {X} (p : Layer -> X) now old new l :
  (forall L, p (layer_stopListening L) = p L) ->
  (forall o L, p (layer_setOpacity o L) = p L) ->
  (forall m attrs L, p (layer_bindAttributesTo m attrs L) = p L) ->
  keeps (fun a => p <$> layers a !! l) (transition_ now old new).
Proof.
  intros H1 H2 H3 a. destruct new as [n|]; [|done].
  destruct (layers a !! n) as [L|] eqn:E;
    [|by rewrite transition__undefined_layer].
  destruct (layer_isLoaded L) eqn:HL.
  - rewrite (transition__loaded _ _ _ _ _ E HL). unfold transitioned; simpl.
    rewrite alter_proj by (intros; destruct (isWithinTimeTolerance now a); done).
    unfold hideLayers. apply fold_alter_proj. intros k L'. unfold hideLayer.
    destruct (Pos.eqb k n); by rewrite ?H2, H1.
  - rewrite (transition__not_loaded _ _ _ _ _ E HL). cbn [state_of].
    by rewrite awaiting_layers.
Qed.

Lemma keeps_goToTime_proj {X} (p : Layer -> X) now time l :
  (forall L, p (layer_stopListening L) = p L) ->
  (forall o L, p (layer_setOpacity o L) = p L) ->
  (forall m attrs L, p (layer_bindAttributesTo m attrs L) = p L) ->
  keeps (fun a => p <$> layers a !! l) (goToTime now time).
Proof.
  intros H1 H2 H3. unfold goToTime, listenToOnce_loadTimes, trigger.
  repeat first [ apply keeps_transition__proj; assumption | keeps_step ].
Qed.

Lemma keeps_run_op_proj {X} (p : Layer -> X) now op l :
  (forall L, p (layer_stopListening L) = p L) ->
  (forall o L, p (layer_setOpacity o L) = p L) ->
  (forall m attrs L, p (layer_bindAttributesTo m attrs L) = p L) ->
  keeps (fun a => p <$> layers a !! l) (run_op now op).
Proof.
  intros H1 H2 H3. destruct op; simpl; unfold next, previous, setTimeTolerance;
    repeat first [ apply keeps_goToTime_proj; assumption | keeps_step ].
Qed.

Lemma run_ops_proj {X} (p : Layer -> X) ops l :
  (forall L, p (layer_stopListening L) = p L) ->
  (forall o L, p (layer_setOpacity o L) = p L) ->
  (forall m attrs L, p (layer_bindAttributesTo m attrs L) = p L) ->
  forall a, p <$> layers (run_ops ops a) !! l = p <$> layers a !! l.
Proof.
  intros H1 H2 H3. induction ops as [|[now op] ops IH]; intros a; simpl; [done|].
  rewrite IH. by apply (keeps_run_op_proj p).
Qed.

(** X5: no run of [next], [previous], [goToTime] and [setTimeTolerance]
    calls, failed ones included, adds or drops a layer object, changes
    whether a layer is loaded, or destroys a layer: these calls only move
    opacity, map, zIndex and the bindings to the master layer. *)
Theorem X5_operations_keep_layer_objects ops a l :
  (is_Some (layers (run_ops ops a) !! l) <-> is_Some (layers a !! l)) /\
  layer_isLoaded <$> layers (run_ops ops a) !! l = layer_isLoaded <$> layers a !! l /\
  layer_destroyed <$> layers (run_ops ops a) !! l = layer_destroyed <$> layers a !! l.
Proof.
  assert (layer_isLoaded <$> layers (run_ops ops a) !! l = layer_isLoaded <$> layers a !! l)
    as Hl by (by apply (run_ops_proj layer_isLoaded)).
  split; [|split; [done|by apply (run_ops_proj layer_destroyed)]].
  rewrite <- (fmap_is_Some layer_isLoaded), Hl. apply fmap_is_Some.
Qed.

(** ** What [goToTime] puts on display *)

Lemma goToTime_loaded_frame now time a c l L :
  getClosestTime_ now time a = Some c -> timeLayers_ a !! c = Some l ->
  layers a !! l = Some L -> layer_isLoaded L = true ->
  goToTime now (VNumber time) a =
  Ok tt (set_triggered (triggered a ++ [ChangeTime time])
           (transitioned now l (set_currentTime_ time a))).
Proof.
  intros Hc Hl HL Hloaded. rewrite goToTime_number.
  assert (Nat.eqb (length (times_ a)) 0 = false) as ->.
  { apply getClosestTime__Some in Hc as (Hin & _). destruct (times_ a); [|done].
    by apply elem_of_nil in Hin. }
  unfold getLayerForTime_ at 1. rewrite Hc, Hl. unfold bind.
  by rewrite (transition__loaded now _ l L (set_currentTime_ time a) HL Hloaded).
Qed.

Lemma within_after_goToTime now time a c :
  getClosestTime_ now time a = Some c ->
  isWithinTimeTolerance now (set_currentTime_ time a) =
  Z.ltb (Z.abs (time - c)) (timeTolerance_ a).
Proof.
  intros Hc. unfold isWithinTimeTolerance, getTimeDeviation_.
  change (getClosestTime_ now (currentTime_ (set_currentTime_ time a)) (set_currentTime_ time a))
    with (getClosestTime_ now time a).
  by rewrite Hc.
Qed.

Lemma transitioned_others_hidden now l a : others_hidden l a (transitioned now l a).
Proof.
  intros l' L' Hf Hne. rewrite transitioned_other by done.
  destruct (layers a !! l'); simpl; [|done]. by intros [= <-].
Qed.

(** X6: [goToTime] to the timestamp of a loaded frame, with a positive
    tolerance, shows that frame and no other: it returns, the frame
    follows the master layer (map, opacity and zIndex are the master's and
    stay bound to it), and every other frame is hidden. *)
Theorem X6_goToTime_shows_exact_frame now time a l L :
  time ∈ times_ a -> timeLayers_ a !! time = Some l ->
  layers a !! l = Some L -> layer_isLoaded L = true ->
  0 < timeTolerance_ a ->
  exists a', goToTime now (VNumber time) a = Ok tt a' /\
    (exists L', layers a' !! l = Some L' /\ synced_layer (masterLayer_ a) L') /\
    others_hidden l a a'.
Proof.
  intros Hin Hl HL Hloaded Htol.
  pose proof (getClosestTime__member now time a Hin) as Hc.
  eexists. split; [by apply (goToTime_loaded_frame now time a time l L)|].
  cbn [layers set_triggered]. split.
  - rewrite transitioned_new by (by exists time).
    rewrite (within_after_goToTime _ _ _ _ Hc).
    replace (Z.abs (time - time)) with 0 by lia.
    rewrite (proj2 (Z.ltb_lt 0 _) Htol). cbn [layers set_currentTime_]. rewrite HL.
    eexists. split; [done|]. by repeat split.
  - intros l' L' Hf Hne. by apply (transitioned_others_hidden now l (set_currentTime_ time a)).
Qed.

Lemma X6_goToTime_shows_exact_frame_witness :
  exists a', goToTime 100 (VNumber 20) Examples.radar = Ok tt a' /\
    (exists L', layers a' !! 2%positive = Some L' /\
                synced_layer (masterLayer_ Examples.radar) L') /\
    others_hidden 2%positive Examples.radar a'.
Proof.
  apply (X6_goToTime_shows_exact_frame 100 20 Examples.radar 2%positive Examples.hidden).
  - right. left.
  - reflexivity.
  - reflexivity.
  - reflexivity.
  - reflexivity.
Defined.

(** X7: when the nearest frame in the tense of the requested time is at
    least [timeTolerance_] away (also when it is exactly that far), and is
    loaded, [goToTime] returns with every frame hidden: nothing of the
    animation is on display. *)
Theorem X7_goToTime_out_of_tolerance now time a c l L :
  getClosestTime_ now time a = Some c -> timeLayers_ a !! c = Some l ->
  layers a !! l = Some L -> layer_isLoaded L = true ->
  timeTolerance_ a <= Z.abs (time - c) ->
  exists a', goToTime now (VNumber time) a = Ok tt a' /\
    forall l' L', is_frame l' a -> layers a' !! l' = Some L' -> hidden_layer L'.
Proof.
  intros Hc Hl HL Hloaded Htol.
  eexists. split; [by apply (goToTime_loaded_frame now time a c l L)|].
  cbn [layers set_triggered]. intros l' L' Hf.
  destruct (decide (l' = l)) as [->|Hne].
  - rewrite transitioned_new by (by exists c).
    rewrite (within_after_goToTime _ _ _ _ Hc).
    rewrite (proj2 (Z.ltb_ge _ _) Htol). cbn [layers set_currentTime_]. rewrite HL.
    by intros [= <-].
  - by apply (transitioned_others_hidden now l (set_currentTime_ time a)).
Qed.

Lemma X7_goToTime_out_of_tolerance_witness :
  exists a', goToTime 100 (VNumber 25)
               (set_timeTolerance_ 5 Examples.radar) = Ok tt a' /\
    forall l' L', is_frame l' (set_timeTolerance_ 5 Examples.radar) ->
                  layers a' !! l' = Some L' -> hidden_layer L'.
Proof.
  apply (X7_goToTime_out_of_tolerance 100 25 (set_timeTolerance_ 5 Examples.radar)
           20 2%positive Examples.hidden); first [reflexivity | vm_compute; discriminate].
Defined.

Lemma goToTime_frame_layer now time a c l L :
  getClosestTime_ now time a = Some c -> timeLayers_ a !! c = Some l ->
  layers a !! l = Some L ->
  layers (transitioned now l (set_currentTime_ time a)) !! l =
  Some (if Z.ltb (Z.abs (time - c)) (timeTolerance_ a)
        then layer_bindAttributesTo (masterLayer_ a) boundAttrs (layer_stopListening L)
        else layer_setOpacity 0%Q (layer_stopListening L)).
Proof.
  intros Hc Hl HL. rewrite transitioned_new by (by exists c).
  rewrite (within_after_goToTime _ _ _ _ Hc). cbn [layers set_currentTime_].
  by rewrite HL.
Qed.

(** X8: [setTimeTolerance] records the new tolerance and decides anew
    what is on display, for the unchanged current time: the current frame,
    if loaded, follows the master layer when the current time is strictly
    nearer to it than the new tolerance and is hidden otherwise, and all
    other frames are hidden. *)
Theorem X8_setTimeTolerance_redisplays now tolerance a c l L :
  getClosestTime_ now (currentTime_ a) a = Some c -> timeLayers_ a !! c = Some l ->
  layers a !! l = Some L -> layer_isLoaded L = true ->
  exists a', setTimeTolerance now tolerance a = Ok tt a' /\
    timeTolerance_ a' = tolerance /\ currentTime_ a' = currentTime_ a /\
    others_hidden l a a' /\
    exists L', layers a' !! l = Some L' /\
      (Z.abs (currentTime_ a - c) < tolerance -> synced_layer (masterLayer_ a) L') /\
      (tolerance <= Z.abs (currentTime_ a - c) -> hidden_layer L').
Proof.
  intros Hc Hl HL Hloaded.
  change (setTimeTolerance now tolerance a)
    with (goToTime now (VNumber (currentTime_ a)) (set_timeTolerance_ tolerance a)).
  rewrite (goToTime_loaded_frame now (currentTime_ a) (set_timeTolerance_ tolerance a) c l L)
    by done.
  eexists. split; [done|]. split; [done|]. split; [done|]. split.
  - intros l' L' Hf Hne. cbn [layers set_triggered].
    by apply (transitioned_others_hidden now l
                (set_currentTime_ (currentTime_ a) (set_timeTolerance_ tolerance a))).
  - cbn [layers set_triggered].
    rewrite (goToTime_frame_layer now (currentTime_ a) (set_timeTolerance_ tolerance a) c l L)
      by done.
    eexists. split; [done|]. cbn [timeTolerance_ set_timeTolerance_ masterLayer_].
    split; intros Ht.
    + rewrite (proj2 (Z.ltb_lt _ _) Ht). by repeat split.
    + rewrite (proj2 (Z.ltb_ge _ _) Ht). by split.
Qed.

Lemma X8_setTimeTolerance_redisplays_witness :
  exists a', setTimeTolerance 100 3 (set_currentTime_ 25 Examples.radar) = Ok tt a' /\
    timeTolerance_ a' = 3 /\ currentTime_ a' = 25 /\
    others_hidden 2%positive (set_currentTime_ 25 Examples.radar) a' /\
    exists L', layers a' !! 2%positive = Some L' /\
      (Z.abs (25 - 20) < 3 -> synced_layer Examples.master L') /\
      (3 <= Z.abs (25 - 20) -> hidden_layer L').
Proof.
  apply (X8_setTimeTolerance_redisplays 100 3 (set_currentTime_ 25 Examples.radar)
           20 2%positive Examples.hidden); reflexivity.
Defined.

(** ** Repeating a call *)

Lemma animation_ext (a b : t) :
  timeTolerance_ a = timeTolerance_ b -> currentTime_ a = currentTime_ b ->
  masterLayer_ a = masterLayer_ b -> timeLayers_ a = timeLayers_ b ->
  times_ a = times_ b -> layers a = layers b ->
  loadTimesListeners a = loadTimesListeners b ->
  layerLoadListeners a = layerLoadListeners b ->
  mapSetListeners a = mapSetListeners b -> deferred a = deferred b ->
  loaderListening a = loaderListening b -> triggered a = triggered b ->
  a = b.
Proof. destruct a, b; simpl; intros; by subst. Qed.

Lemma shown_store_idemp (g : Layer -> Layer) l (timeLayers : gmap Z LayerId)
    (S : gmap LayerId Layer) :
  (exists time, timeLayers !! time = Some l) ->
  (forall L, g (layer_stopListening (g (layer_stopListening L)))
             = g (layer_stopListening L)) ->
  alter g l (hideLayers l timeLayers (alter g l (hideLayers l timeLayers S)))
  = alter g l (hideLayers l timeLayers S).
Proof.
  intros Hf Hg. apply map_eq. intros k. destruct (decide (k = l)) as [->|Hne].
  - rewrite !lookup_alter_eq. rewrite (hideLayers_frame l timeLayers (alter _ _ _)) by done.
    rewrite lookup_alter_eq, hideLayers_frame by done.
    unfold hideLayer. rewrite Pos.eqb_refl.
    destruct (S !! l); simpl; [|done]. by rewrite Hg.
  - rewrite !lookup_alter_ne by done. unfold hideLayers. rewrite !hide_fold_lookup.
    rewrite lookup_alter_ne by done. rewrite hide_fold_lookup.
    case_bool_decide; [|done].
    destruct (S !! k); simpl; [|done]. by rewrite hideLayer_idemp.
Qed.

(** X9: [goToTime] is idempotent on what it displays: a second call with
    the same time, the frame being loaded, returns and changes nothing but
    the log of events, where 'change:time' is triggered once more. *)
Theorem X9_goToTime_twice now time a c l L :
  getClosestTime_ now time a = Some c -> timeLayers_ a !! c = Some l ->
  layers a !! l = Some L -> layer_isLoaded L = true ->
  exists a1, goToTime now (VNumber time) a = Ok tt a1 /\
    goToTime now (VNumber time) a1 =
      Ok tt (set_triggered (triggered a1 ++ [ChangeTime time]) a1).
Proof.
  intros Hc Hl HL Hloaded.
  eexists. split; [by apply (goToTime_loaded_frame now time a c l L)|].
  set (a1 := set_triggered _ _).
  pose proof (goToTime_frame_layer now time a c l L Hc Hl HL) as HL1.
  rewrite (goToTime_loaded_frame now time a1 c l _ Hc Hl HL1)
    by (by destruct (Z.ltb _ _)).
  f_equal. apply animation_ext; try reflexivity.
  change (alter (if isWithinTimeTolerance now (set_currentTime_ time a)
                 then layer_bindAttributesTo (masterLayer_ a) boundAttrs
                 else layer_setOpacity 0%Q) l
            (hideLayers l (timeLayers_ a)
               (alter (if isWithinTimeTolerance now (set_currentTime_ time a)
                       then layer_bindAttributesTo (masterLayer_ a) boundAttrs
                       else layer_setOpacity 0%Q) l
                  (hideLayers l (timeLayers_ a) (layers a))))
          = alter (if isWithinTimeTolerance now (set_currentTime_ time a)
                   then layer_bindAttributesTo (masterLayer_ a) boundAttrs
                   else layer_setOpacity 0%Q) l
              (hideLayers l (timeLayers_ a) (layers a))).
  apply shown_store_idemp; [by exists c|].
  intros L0. by destruct (isWithinTimeTolerance _ _).
Qed.

Lemma X9_goToTime_twice_witness :
  exists a1, goToTime 100 (VNumber 18) Examples.radar = Ok tt a1 /\
    goToTime 100 (VNumber 18) a1 =
      Ok tt (set_triggered (triggered a1 ++ [ChangeTime 18]) a1).
Proof.
  apply (X9_goToTime_twice 100 18 Examples.radar 20 2%positive Examples.hidden);
    reflexivity.
Defined.

(** ** A frame that is still loading *)

Lemma awaiting_fields old l a :
  currentTime_ (awaiting old l a) = currentTime_ a /\
  times_ (awaiting old l a) = times_ a /\
  timeLayers_ (awaiting old l a) = timeLayers_ a /\
  timeTolerance_ (awaiting old l a) = timeTolerance_ a /\
  masterLayer_ (awaiting old l a) = masterLayer_ a /\
  triggered (awaiting old l a) = triggered a.
Proof. unfold awaiting. by destruct (hasMap (masterLayer_ a)). Qed.

Lemma goToTime_loading_frame now time a c l L :
  getClosestTime_ now time a = Some c -> timeLayers_ a !! c = Some l ->
  layers a !! l = Some L -> layer_isLoaded L = false ->
  goToTime now (VNumber time) a =
  Ok tt (set_triggered (triggered a ++ [ChangeTime time])
           (awaiting (getCurrentLayer now a) l (set_currentTime_ time a))).
Proof.
  intros Hc Hl HL Hloaded. rewrite goToTime_number.
  assert (Nat.eqb (length (times_ a)) 0 = false) as ->.
  { apply getClosestTime__Some in Hc as (Hin & _). destruct (times_ a); [|done].
    by apply elem_of_nil in Hin. }
  unfold getLayerForTime_ at 1. rewrite Hc, Hl. unfold bind.
  rewrite (transition__not_loaded now _ l L (set_currentTime_ time a) HL Hloaded).
  unfold trigger, modify. do 2 f_equal.
  by destruct (awaiting_fields (getCurrentLayer now a) l (set_currentTime_ time a))
    as (_ & _ & _ & _ & _ & ->).
Qed.






(** ** Destroying the animation *)

Lemma destroy_fold_lookup (ids : list LayerId) :
  forall (S : gmap LayerId Layer) l,
    fold_left (fun S k => alter layer_destroy k S) ids S !! l =
    if bool_decide (l ∈ ids) then layer_destroy <$> S !! l else S !! l.
Proof.
  induction ids as [|x ids IH]; intros S l; cbn [fold_left].
  - rewrite bool_decide_eq_false_2; [done|]. apply not_elem_of_nil.
  - rewrite IH. destruct (decide (x = l)) as [->|Hne].
    + rewrite lookup_alter_eq.
      rewrite (bool_decide_eq_true_2 (l ∈ l :: ids)) by left.
      case_bool_decide; [|done]. by destruct (S !! l).
    + rewrite lookup_alter_ne by done.
      apply (f_equal (fun b : bool => if b then _ else _)).
      apply bool_decide_ext. rewrite elem_of_cons. intuition congruence.
Qed.

(** X11: [destroy] always returns, and afterwards: the timeline and the
    frames hash are empty; every layer that was a frame is destroyed and
    no other layer object is touched; no listener of the animation is
    left, so a layer that finishes loading only becomes loaded and no
    transition runs; the master layer has its strategy back; and [next()]
    and [previous()] do nothing. *)
Theorem X11_destroy_clears_animation a :
  let a' := state_of (destroy a) in
  destroy a = Ok tt a' /\
  getTimes a' = [] /\ timeLayers_ a' = ∅ /\
  loadTimesListeners a' = 0%nat /\ layerLoadListeners a' = [] /\
  mapSetListeners a' = [] /\
  master_hasStrategy (masterLayer_ a') = true /\
  (forall l, is_frame l a -> layers a' !! l = layer_destroy <$> layers a !! l) /\
  (forall l, ~ is_frame l a -> layers a' !! l = layers a !! l) /\
  (forall now l, on_layer_load now l a'
                 = Ok tt (set_layers (alter layer_markLoaded l (layers a')) a')) /\
  (forall now, next now a' = Ok tt a' /\ previous now a' = Ok tt a').
Proof.
  intros a'. repeat (split; [reflexivity|]). split; [|split; [|split]].
  - intros l Hf. subst a'. cbn. rewrite destroy_fold_lookup.
    rewrite bool_decide_eq_true_2; [done|]. by apply elem_of_frames.
  - intros l Hf. subst a'. cbn. rewrite destroy_fold_lookup.
    rewrite bool_decide_eq_false_2; [done|]. by rewrite elem_of_frames.
  - intros now l. reflexivity.
  - intros now. by apply next_previous_empty.
Qed.

(** ** Stepping through the frames *)

Lemma timeline_loaded_NoDup a : timeline_loaded a -> NoDup (times_ a).
Proof. intros (-> & _). apply getOrderedTimesFromLayers__NoDup. Qed.

Lemma goToTime_frame_loaded now target a :
  timeline_loaded a -> target ∈ times_ a ->
  exists a', goToTime now (VNumber target) a = Ok tt a' /\
    currentTime_ a' = target /\ times_ a' = times_ a /\ timeline_loaded a'.
Proof.
  intros Hwf Hin.
  destruct (goToTime_frame now target a Hwf Hin) as (a' & Hgo & Hcur & _ & Htimes).
  exists a'. split; [done|]. split; [done|]. split; [done|].
  pose proof (keeps_goToTime timeLayers_ now (VNumber target)
                ltac:(frame) ltac:(frame) ltac:(frame) ltac:(frame) a) as Htl.
  rewrite Hgo in Htl. cbn [state_of] in Htl.
  destruct Hwf as (Ht & Hne & Hstore). unfold getTimes in Htimes.
  split; [by rewrite Htimes, Htl|]. split; [by rewrite Htimes|].
  intros time l Hl. rewrite Htl in Hl.
  pose proof (keeps_goToTime_proj layer_isLoaded now (VNumber target) l
                ltac:(done) ltac:(done) ltac:(done) a) as Hk.
  rewrite Hgo in Hk. cbn [state_of] in Hk.
  rewrite <- (fmap_is_Some layer_isLoaded), Hk, fmap_is_Some. by apply (Hstore time).
Qed.

Lemma next_step now a c i :
  timeline_loaded a -> 0 ∉ times_ a ->
  getClosestTime_ now (currentTime_ a) a = Some c -> times_ a !! i = Some c ->
  exists a', next now a = Ok tt a' /\
    times_ a !! ((i + 1) mod length (times_ a))%nat = Some (currentTime_ a') /\
    times_ a' = times_ a /\ timeline_loaded a'.
Proof.
  intros Hwf Hz Hc Hi.
  pose proof (lookup_lt_Some _ _ _ Hi) as Hlt.
  destruct (lookup_lt_is_Some_2 (times_ a) ((i + 1) mod length (times_ a))%nat)
    as [target Ht]; [apply Nat.mod_upper_bound; lia|].
  assert (target ∈ times_ a) as Hin by (by apply list_elem_of_lookup_2 in Ht).
  assert (target <> 0) as Hnz by (by intros ->).
  destruct (goToTime_frame_loaded now target a Hwf Hin) as (a' & Hgo & Hcur & Htimes & Hwf').
  exists a'. unfold next, bind, gets.
  rewrite (getNextTime__cycle _ _ _ _ (timeline_loaded_NoDup _ Hwf) Hc Hi), Ht. simpl.
  rewrite (proj2 (Z.eqb_neq target 0) Hnz). simpl. by rewrite Hcur.
Qed.

Lemma previous_step now a c i :
  timeline_loaded a -> 0 ∉ times_ a ->
  getClosestTime_ now (currentTime_ a) a = Some c -> times_ a !! i = Some c ->
  exists a', previous now a = Ok tt a' /\
    times_ a !! ((i + length (times_ a) - 1) mod length (times_ a))%nat
      = Some (currentTime_ a') /\
    times_ a' = times_ a /\ timeline_loaded a'.
Proof.
  intros Hwf Hz Hc Hi.
  pose proof (lookup_lt_Some _ _ _ Hi) as Hlt.
  destruct (lookup_lt_is_Some_2 (times_ a)
              ((i + length (times_ a) - 1) mod length (times_ a))%nat)
    as [target Ht]; [apply Nat.mod_upper_bound; lia|].
  assert (target ∈ times_ a) as Hin by (by apply list_elem_of_lookup_2 in Ht).
  assert (target <> 0) as Hnz by (by intros ->).
  destruct (goToTime_frame_loaded now target a Hwf Hin) as (a' & Hgo & Hcur & Htimes & Hwf').
  exists a'. unfold previous, bind, gets.
  rewrite (getPreviousTime__cycle _ _ _ _ (timeline_loaded_NoDup _ Hwf) Hc Hi), Ht. simpl.
  rewrite (proj2 (Z.eqb_neq target 0) Hnz). simpl. by rewrite Hcur.
Qed.

Lemma mod_succ_pred i n : (i < n)%nat -> (((i + 1) mod n + n - 1) mod n = i)%nat.
Proof.
  intros Hlt. destruct (decide (i + 1 = n)%nat) as [He|Hne].
  - rewrite He, Nat.Div0.mod_same. simpl. rewrite Nat.mod_small by lia. lia.
  - rewrite (Nat.mod_small (i + 1)) by lia.
    replace (i + 1 + n - 1)%nat with (i + 1 * n)%nat by lia.
    rewrite Nat.Div0.mod_add. apply Nat.mod_small. lia.
Qed.

Lemma mod_pred_succ i n : (i < n)%nat -> (((i + n - 1) mod n + 1) mod n = i)%nat.
Proof.
  intros Hlt. destruct (decide (i = 0)%nat) as [->|Hne].
  - simpl. rewrite (Nat.mod_small (n - 1)) by lia.
    replace (n - 1 + 1)%nat with n by lia. apply Nat.Div0.mod_same.
  - replace (i + n - 1)%nat with (i - 1 + 1 * n)%nat by lia.
    rewrite Nat.Div0.mod_add, (Nat.mod_small (i - 1)) by lia.
    replace (i - 1 + 1)%nat with i by lia. apply Nat.mod_small. lia.
Qed.

(** X12: on a loaded timeline with no timestamp 0, [previous()] undoes
    [next()] and [next()] undoes [previous()]: both calls return, and the
    current time ends on the timestamp of the frame that was current. *)
Theorem X12_next_previous_inverse now now' a c :
  timeline_loaded a -> 0 ∉ times_ a ->
  getClosestTime_ now (currentTime_ a) a = Some c ->
  (exists a1 a2, next now a = Ok tt a1 /\ previous now' a1 = Ok tt a2 /\
                 currentTime_ a2 = c /\ getTimes a2 = getTimes a) /\
  (exists a1 a2, previous now a = Ok tt a1 /\ next now' a1 = Ok tt a2 /\
                 currentTime_ a2 = c /\ getTimes a2 = getTimes a).
Proof.
  intros Hwf Hz Hc.
  assert (c ∈ times_ a) as Hin by (by apply getClosestTime__Some in Hc as (? & _)).
  apply list_elem_of_lookup in Hin as [i Hi].
  pose proof (lookup_lt_Some _ _ _ Hi) as Hlt. split.
  - destruct (next_step now a c i Hwf Hz Hc Hi) as (a1 & Hn & Ht1 & Htimes1 & Hwf1).
    rewrite <- Htimes1 in Ht1, Hz.
    assert (getClosestTime_ now' (currentTime_ a1) a1 = Some (currentTime_ a1)) as Hc1.
    { apply getClosestTime__member. by apply list_elem_of_lookup_2 in Ht1. }
    destruct (previous_step now' a1 _ _ Hwf1 Hz Hc1 Ht1) as (a2 & Hp & Ht2 & Htimes2 & _).
    exists a1, a2. split; [done|]. split; [done|].
    rewrite Htimes1, mod_succ_pred in Ht2 by done. unfold getTimes.
    split; [congruence|congruence].
  - destruct (previous_step now a c i Hwf Hz Hc Hi) as (a1 & Hn & Ht1 & Htimes1 & Hwf1).
    rewrite <- Htimes1 in Ht1, Hz.
    assert (getClosestTime_ now' (currentTime_ a1) a1 = Some (currentTime_ a1)) as Hc1.
    { apply getClosestTime__member. by apply list_elem_of_lookup_2 in Ht1. }
    destruct (next_step now' a1 _ _ Hwf1 Hz Hc1 Ht1) as (a2 & Hp & Ht2 & Htimes2 & _).
    exists a1, a2. split; [done|]. split; [done|].
    rewrite Htimes1, mod_pred_succ in Ht2 by done. unfold getTimes.
    split; [congruence|congruence].
Qed.

Lemma X12_next_previous_inverse_witness :
  (exists a1 a2, next 100 (set_currentTime_ 29 Examples.radar) = Ok tt a1 /\
                 previous 101 a1 = Ok tt a2 /\
                 currentTime_ a2 = 30 /\
                 getTimes a2 = getTimes (set_currentTime_ 29 Examples.radar)) /\
  (exists a1 a2, previous 100 (set_currentTime_ 29 Examples.radar) = Ok tt a1 /\
                 next 101 a1 = Ok tt a2 /\
                 currentTime_ a2 = 30 /\
                 getTimes a2 = getTimes (set_currentTime_ 29 Examples.radar)).
Proof.
  apply (X12_next_previous_inverse 100 101 (set_currentTime_ 29 Examples.radar) 30).
  - apply radar_timeline_loaded.
  - intros Hin. repeat (apply elem_of_cons in Hin as [Hin|Hin]; [discriminate|]).
    by apply elem_of_nil in Hin.
  - reflexivity.
Defined.

Lemma repeat_next_on_frame rest : forall a j,
  timeline_loaded a -> 0 ∉ times_ a ->
  times_ a !! j = Some (currentTime_ a) ->
  times_ (repeat_next rest a) = times_ a /\
  times_ a !! ((j + length rest) mod length (times_ a))%nat
    = Some (currentTime_ (repeat_next rest a)).
Proof.
  induction rest as [|now rest IH]; intros a j Hwf Hz Hj; cbn [repeat_next length].
  - split; [done|]. rewrite Nat.add_0_r, Nat.mod_small; [done|].
    by apply lookup_lt_Some in Hj.
  - assert (getClosestTime_ now (currentTime_ a) a = Some (currentTime_ a)) as Hc.
    { apply getClosestTime__member. by apply list_elem_of_lookup_2 in Hj. }
    destruct (next_step now a _ j Hwf Hz Hc Hj) as (a1 & Hn & Ht1 & Htimes1 & Hwf1).
    rewrite Hn. cbn [state_of].
    rewrite <- Htimes1 in Ht1, Hz.
    destruct (IH a1 _ Hwf1 Hz Ht1) as [Htimes Hcur].
    rewrite Htimes1 in Htimes, Hcur. split; [done|].
    rewrite <- Hcur. f_equal.
    rewrite Nat.Div0.add_mod_idemp_l. f_equal. lia.
Qed.

(** X13: calls of [next()] in a row cycle through the frames of a loaded
    timeline with no timestamp 0: from the [i]-th of [n] frames, [k] calls
    lead to the timestamp of frame [(i + k) mod n], whatever the clock
    readings after the first one; [n] calls lead back to the timestamp of
    the frame the animation started on. *)
Theorem X13_next_cycles_through_frames now rest a c i :
  timeline_loaded a -> 0 ∉ times_ a ->
  getClosestTime_ now (currentTime_ a) a = Some c -> times_ a !! i = Some c ->
  let a' := repeat_next (now :: rest) a in
  getTimes a' = getTimes a /\
  times_ a !! ((i + S (length rest)) mod length (times_ a))%nat
    = Some (currentTime_ a') /\
  (S (length rest) = length (times_ a) -> currentTime_ a' = c).
Proof.
  intros Hwf Hz Hc Hi a'. subst a'. cbn [repeat_next].
  destruct (next_step now a c i Hwf Hz Hc Hi) as (a1 & Hn & Ht1 & Htimes1 & Hwf1).
  rewrite Hn. cbn [state_of].
  rewrite <- Htimes1 in Ht1, Hz.
  destruct (repeat_next_on_frame rest a1 _ Hwf1 Hz Ht1) as [Htimes Hcur].
  rewrite Htimes1 in Htimes, Hcur.
  assert (times_ a !! ((i + S (length rest)) mod length (times_ a))%nat
          = Some (currentTime_ (repeat_next rest a1))) as Hk.
  { rewrite <- Hcur. f_equal. rewrite Nat.Div0.add_mod_idemp_l. f_equal. lia. }
  split; [done|]. split; [done|].
  intros Hn'. rewrite Hn' in Hk.
  replace (i + length (times_ a))%nat with (i + 1 * length (times_ a))%nat in Hk by lia.
  rewrite Nat.Div0.mod_add, Nat.mod_small in Hk by (by apply lookup_lt_Some in Hi).
  congruence.
Qed.

Lemma X13_next_cycles_through_frames_witness :
  let a' := repeat_next [100; 101; 102] (set_currentTime_ 18 Examples.radar) in
  getTimes a' = getTimes (set_currentTime_ 18 Examples.radar) /\
  times_ (set_currentTime_ 18 Examples.radar)
    !! ((1 + 3) mod length (times_ (set_currentTime_ 18 Examples.radar)))%nat
    = Some (currentTime_ a') /\
  (3%nat = length (times_ (set_currentTime_ 18 Examples.radar)) -> currentTime_ a' = 20).
Proof.
  apply (X13_next_cycles_through_frames 100 [101; 102]
           (set_currentTime_ 18 Examples.radar) 20 1).
  - apply radar_timeline_loaded.
  - intros Hin. repeat (apply elem_of_cons in Hin as [Hin|Hin]; [discriminate|]).
    by apply elem_of_nil in Hin.
  - reflexivity.
  - reflexivity.
Defined.

(** ** A frame at the epoch *)

Lemma epoch_timeline_loaded : timeline_loaded epoch.
Proof.
  split; [reflexivity|]. split; [done|].
  change (map_Forall (fun (_ : Z) layer => is_Some (layers epoch !! layer))
            (timeLayers_ epoch)).
  apply (bool_decide_unpack _). vm_compute. exact I.
Qed.

(** X14: a frame with the timestamp 0 is never moved to: when the frame
    after the current one (cyclically) has the timestamp 0, [next()]
    returns with the animation unchanged, and so does [previous()] when
    the frame before the current one has the timestamp 0. *)
Theorem X14_timestamp_zero_is_skipped now a c i :
  timeline_loaded a ->
  getClosestTime_ now (currentTime_ a) a = Some c -> times_ a !! i = Some c ->
  (times_ a !! ((i + 1) mod length (times_ a))%nat = Some 0 -> next now a = Ok tt a) /\
  (times_ a !! ((i + length (times_ a) - 1) mod length (times_ a))%nat = Some 0 ->
   previous now a = Ok tt a).
Proof.
  intros Hwf Hc Hi. pose proof (timeline_loaded_NoDup _ Hwf) as Hnd.
  split; intros Hz.
  - unfold next, bind, gets. by rewrite (getNextTime__cycle _ _ _ _ Hnd Hc Hi), Hz.
  - unfold previous, bind, gets. by rewrite (getPreviousTime__cycle _ _ _ _ Hnd Hc Hi), Hz.
Qed.

Lemma X14_timestamp_zero_is_skipped_witness :
  (times_ epoch !! ((1 + 1) mod length (times_ epoch))%nat = Some 0 ->
   next 100 epoch = Ok tt epoch) /\
  (times_ epoch !! ((1 + length (times_ epoch) - 1) mod length (times_ epoch))%nat = Some 0 ->
   previous 100 epoch = Ok tt epoch).
Proof.
  apply (X14_timestamp_zero_is_skipped 100 epoch 20 1).
  - apply epoch_timeline_loaded.
  - reflexivity.
  - reflexivity.
Defined.

(** ** Preloading a frame *)

Lemma alter_lookup_insert (g : Layer -> Layer) l L (S : gmap LayerId Layer) :
  S !! l = Some L -> alter g l S = <[l := g L]> S.
Proof.
  intros H. apply map_eq. intros k. destruct (decide (l = k)) as [->|Hne].
  - by rewrite lookup_alter_eq, lookup_insert_eq, H.
  - by rewrite lookup_alter_ne, lookup_insert_ne.
Qed.

(** X15: preloading never shows a frame.  A loaded layer is left alone.
    A layer that is not loaded is untouched by the call itself: with the
    master layer off the map, the layer only waits for the master's
    'map:set'; with the master layer on a map, a deferred call is queued,
    and when it runs it puts the layer on the master's map with opacity
    0 and changes no other layer. *)
Theorem X15_preload_keeps_layer_invisible a l L :
  layers a !! l = Some L ->
  (layer_isLoaded L = true -> preloadTimeLayer_ (Some l) a = Ok tt a) /\
  (layer_isLoaded L = false -> master_map (masterLayer_ a) = None ->
   preloadTimeLayer_ (Some l) a
   = Ok tt (set_mapSetListeners (mapSetListeners a ++ [l]) a)) /\
  (layer_isLoaded L = false ->
   forall mp, master_map (masterLayer_ a) = Some mp -> deferred a = [] ->
     exists a1 a2,
       preloadTimeLayer_ (Some l) a = Ok tt a1 /\ layers a1 = layers a /\
       run_deferred a1 = Ok tt a2 /\ deferred a2 = [] /\
       layers a2 = <[l := layer_set_opacity_map 0%Q (Some mp) L]> (layers a)).
Proof.
  intros HL. split; [by apply preloadTimeLayer__loaded|]. split.
  - intros Hloaded Hmap. unfold preloadTimeLayer_, bind.
    rewrite (isLoaded_Some _ _ _ HL), Hloaded. unfold gets, hasMap. by rewrite Hmap.
  - intros Hloaded mp Hmap Hq.
    exists (set_deferred (deferred a ++ [l]) a).
    eexists. split; [|split; [done|split]].
    + unfold preloadTimeLayer_, bind.
      rewrite (isLoaded_Some _ _ _ HL), Hloaded. unfold gets, hasMap. by rewrite Hmap.
    + unfold run_deferred, bind, gets. cbn [deferred set_deferred]. rewrite Hq.
      reflexivity.
    + split; [done|]. cbn [layers set_layers set_deferred masterLayer_].
      rewrite Hmap. by apply alter_lookup_insert.
Qed.

Lemma X15_preload_keeps_layer_invisible_witness :
  (layer_isLoaded Examples.loading = true ->
   preloadTimeLayer_ (Some 2%positive) Examples.radar_loading
   = Ok tt Examples.radar_loading) /\
  (layer_isLoaded Examples.loading = false ->
   master_map (masterLayer_ Examples.radar_loading) = None ->
   preloadTimeLayer_ (Some 2%positive) Examples.radar_loading
   = Ok tt (set_mapSetListeners (mapSetListeners Examples.radar_loading ++ [2%positive])
              Examples.radar_loading)) /\
  (layer_isLoaded Examples.loading = false ->
   forall mp, master_map (masterLayer_ Examples.radar_loading) = Some mp ->
              deferred Examples.radar_loading = [] ->
     exists a1 a2,
       preloadTimeLayer_ (Some 2%positive) Examples.radar_loading = Ok tt a1 /\
       layers a1 = layers Examples.radar_loading /\
       run_deferred a1 = Ok tt a2 /\ deferred a2 = [] /\
       layers a2 = <[2%positive := layer_set_opacity_map 0%Q (Some mp) Examples.loading]>
                     (layers Examples.radar_loading)).
Proof.
  apply (X15_preload_keeps_layer_invisible Examples.radar_loading 2%positive
           Examples.loading).
  reflexivity.
Defined.

(** ** From the first request to the first frame *)

Lemma goToTime_before_load now time a :
  times_ a = [] ->
  goToTime now (VNumber time) a =
  Ok tt (set_triggered (triggered a ++ [ChangeTime time])
           (set_loadTimesListeners (S (loadTimesListeners a))
              (set_currentTime_ time a))).
Proof. intros Ht. by rewrite goToTime_number, Ht. Qed.

(** X16: a time requested before the times are loaded is on display once
    they are.  After [goToTime] on an animation without times and
    without pending listeners, the loader's 'load:times' makes the
    handler return with the ordered timeline, the requested time as the
    current time and no listener left; the frame nearest to the time (in
    its tense), if loaded, follows the master layer when within
    tolerance and is hidden otherwise, and all other frames are hidden.
    'change:time' is triggered three times in all: by the call, by the
    handler's refresh and by the listener of the call. *)
Theorem X16_requested_time_shown_after_load
    now now' time times timeLayers a c l L :
  times_ a = [] -> loaderListening a = true -> loadTimesListeners a = 0%nat ->
  getClosestTime_ now' time (set_times_ (getOrderedTimesFromLayers_ timeLayers) a)
    = Some c ->
  timeLayers !! c = Some l -> layers a !! l = Some L -> layer_isLoaded L = true ->
  exists a1 a2,
    goToTime now (VNumber time) a = Ok tt a1 /\ layers a1 = layers a /\
    on_loader_loadTimes now' times timeLayers a1 = Ok tt a2 /\
    getTimes a2 = getOrderedTimesFromLayers_ timeLayers /\
    currentTime_ a2 = time /\ loadTimesListeners a2 = 0%nat /\
    triggered a2 = triggered a ++ [ChangeTime time; ChangeTime time;
                                   LoadTimes times timeLayers; ChangeTime time] /\
    (forall l' L', (exists t', timeLayers !! t' = Some l') -> l' <> l ->
                   layers a2 !! l' = Some L' -> hidden_layer L') /\
    exists L', layers a2 !! l = Some L' /\
      (Z.abs (time - c) < timeTolerance_ a -> synced_layer (masterLayer_ a) L') /\
      (timeTolerance_ a <= Z.abs (time - c) -> hidden_layer L').
Proof.
  intros Ht Hlisten Hn Hc Hl HL Hloaded.
  set (a1 := set_triggered (triggered a ++ [ChangeTime time])
               (set_loadTimesListeners (S (loadTimesListeners a))
                  (set_currentTime_ time a))).
  set (b0 := set_times_ (getOrderedTimesFromLayers_ timeLayers)
               (set_timeLayers_ timeLayers (set_loaderListening false a1))).
  (* the handler's refresh *)
  assert (refreshCurrentLayer_ now' b0 = goToTime now' (VNumber time) b0) as Hrefresh
    by reflexivity.
  pose proof (goToTime_loaded_frame now' time b0 c l L Hc Hl HL Hloaded) as Hgo1.
  set (b1 := set_triggered (triggered b0 ++ [ChangeTime time])
               (transitioned now' l (set_currentTime_ time b0))) in Hgo1.
  pose proof (goToTime_frame_layer now' time b0 c l L Hc Hl HL) as HL1.
  (* the listener of the call *)
  assert (loadTimesListeners b1 = 1%nat) as Hn1.
  { change (loadTimesListeners b1) with (S (loadTimesListeners a)). by rewrite Hn. }
  pose proof (trigger_loadTimes_single now' times timeLayers b1 Hn1) as Htrig.
  set (b2 := set_loadTimesListeners 0
               (set_triggered (triggered b1 ++ [LoadTimes times timeLayers]) b1)) in Htrig.
  change (currentTime_ b1) with time in Htrig.
  pose proof (goToTime_loaded_frame now' time b2 c l _ Hc Hl HL1) as Hgo2.
  rewrite Hgo2 in Htrig by (by destruct (Z.ltb _ _)).
  exists a1. eexists.
  split; [by apply goToTime_before_load|]. split; [done|].
  split.
  { rewrite on_loader_loadTimes_listening by done. fold b0.
    unfold bind at 1. rewrite Hrefresh, Hgo1. exact Htrig. }
  split; [done|]. split; [done|]. split; [done|]. split.
  { cbn [triggered set_triggered]. change (triggered b2)
      with (((triggered a ++ [ChangeTime time]) ++ [ChangeTime time])
              ++ [LoadTimes times timeLayers]).
    by rewrite <- !app_assoc. }
  cbn [layers set_triggered]. split.
  - intros l' L' Hf Hne.
    by apply (transitioned_others_hidden now' l (set_currentTime_ time b2)).
  - rewrite (goToTime_frame_layer now' time b2 c l _ Hc Hl HL1).
    eexists. split; [done|].
    change (timeTolerance_ b2) with (timeTolerance_ a).
    change (masterLayer_ b2) with (masterLayer_ a).
    split; intros Htol.
    + rewrite (proj2 (Z.ltb_lt _ _) Htol). by repeat split.
    + rewrite (proj2 (Z.ltb_ge _ _) Htol). by split.
Qed.

Lemma X16_requested_time_shown_after_load_witness :
  exists a1 a2,
    goToTime 90 (VNumber 20) Examples.fresh = Ok tt a1 /\
    layers a1 = layers Examples.fresh /\
    on_loader_loadTimes 100 [15; 45] Examples.satellite_frames a1 = Ok tt a2 /\
    getTimes a2 = getOrderedTimesFromLayers_ Examples.satellite_frames /\
    currentTime_ a2 = 20 /\ loadTimesListeners a2 = 0%nat /\
    triggered a2 = triggered Examples.fresh
                     ++ [ChangeTime 20; ChangeTime 20;
                         LoadTimes [15; 45] Examples.satellite_frames; ChangeTime 20] /\
    (forall l' L', (exists t', Examples.satellite_frames !! t' = Some l') ->
                   l' <> 1%positive -> layers a2 !! l' = Some L' -> hidden_layer L') /\
    exists L', layers a2 !! 1%positive = Some L' /\
      (Z.abs (20 - 15) < timeTolerance_ Examples.fresh ->
       synced_layer (masterLayer_ Examples.fresh) L') /\
      (timeTolerance_ Examples.fresh <= Z.abs (20 - 15) -> hidden_layer L').
Proof.
  apply (X16_requested_time_shown_after_load 90 100 20 [15; 45] Examples.satellite_frames
           Examples.fresh 15 1%positive Examples.hidden); reflexivity.
Defined.

(** ** The order of the frames *)

Lemma sorted_lookup_lt (l : list Z) :
  StronglySorted Z.lt l ->
  forall i j x y, l !! i = Some x -> l !! j = Some y -> (i < j)%nat -> x < y.
Proof.
  induction 1 as [|z l Hs IH Hz]; intros i j x y Hi Hj Hlt; [done|].
  destruct j as [|j]; [lia|]. destruct i as [|i]; simpl in *.
  - injection Hi as <-. rewrite Forall_forall in Hz. apply Hz.
    by apply list_elem_of_lookup_2 in Hj.
  - apply (IH i j); [done..|lia].
Qed.

Lemma timeline_loaded_sorted a : timeline_loaded a -> StronglySorted Z.lt (times_ a).
Proof.
  intros (-> & _). apply Sorted_StronglySorted; [apply _|].
  apply getOrderedTimesFromLayers__sorted.
Qed.

Lemma sorted_lookup_index (l : list Z) i j x y :
  StronglySorted Z.lt l -> l !! i = Some x -> l !! j = Some y ->
  x < y -> (i < j)%nat.
Proof.
  intros Hs Hi Hj Hxy. destruct (Nat.lt_trichotomy i j) as [?|[->|Hgt]]; [done|..].
  - rewrite Hi in Hj. injection Hj as ->. lia.
  - pose proof (sorted_lookup_lt l Hs j i y x Hj Hi Hgt). lia.
Qed.

(** X17: [next()] follows the order of the timestamps.  On a loaded
    timeline with no timestamp 0, from a current frame that is not the
    latest it moves the current time to the least timestamp after the
    current frame's, and from the latest frame to the earliest timestamp
    of the timeline. *)
Theorem X17_next_follows_timestamp_order now a c :
  timeline_loaded a -> 0 ∉ times_ a ->
  getClosestTime_ now (currentTime_ a) a = Some c ->
  exists a', next now a = Ok tt a' /\ currentTime_ a' ∈ times_ a /\
    ((exists x, x ∈ times_ a /\ c < x) ->
     c < currentTime_ a' /\
     forall x, x ∈ times_ a -> c < x -> currentTime_ a' <= x) /\
    ((forall x, x ∈ times_ a -> x <= c) ->
     forall x, x ∈ times_ a -> currentTime_ a' <= x).
Proof.
  intros Hwf Hz Hc.
  assert (c ∈ times_ a) as Hin by (by apply getClosestTime__Some in Hc as (? & _)).
  apply list_elem_of_lookup in Hin as [i Hi].
  pose proof (lookup_lt_Some _ _ _ Hi) as Hlt.
  pose proof (timeline_loaded_sorted a Hwf) as Hs.
  destruct (next_step now a c i Hwf Hz Hc Hi) as (a' & Hn & Ht & _ & _).
  exists a'. split; [done|]. split; [by apply list_elem_of_lookup_2 in Ht|]. split.
  - intros (x & Hx & Hcx). apply list_elem_of_lookup in Hx as [j Hj].
    pose proof (sorted_lookup_index _ _ _ _ _ Hs Hi Hj Hcx) as Hij.
    pose proof (lookup_lt_Some _ _ _ Hj) as Hjlt.
    rewrite Nat.mod_small in Ht by lia. split.
    + apply (sorted_lookup_lt _ Hs i (i + 1)); [done..|lia].
    + intros y Hy Hcy. apply list_elem_of_lookup in Hy as [k Hk].
      pose proof (sorted_lookup_index _ _ _ _ _ Hs Hi Hk Hcy) as Hik.
      destruct (decide (k = i + 1)%nat) as [->|Hne].
      * rewrite Ht in Hk. injection Hk as ->. lia.
      * pose proof (sorted_lookup_lt _ Hs (i + 1) k _ _ Ht Hk). lia.
  - intros Hmax x Hx. apply list_elem_of_lookup in Hx as [k Hk].
    assert (i + 1 = length (times_ a))%nat as Hlast.
    { destruct (decide (i + 1 = length (times_ a))%nat) as [|Hne]; [done|].
      destruct (lookup_lt_is_Some_2 (times_ a) (i + 1)) as [y Hy]; [lia|].
      pose proof (sorted_lookup_lt _ Hs i (i + 1) _ _ Hi Hy).
      pose proof (Hmax y ltac:(by apply list_elem_of_lookup_2 in Hy)). lia. }
    rewrite Hlast, Nat.Div0.mod_same in Ht.
    destruct k as [|k]; [rewrite Ht in Hk; injection Hk as ->; lia|].
    pose proof (sorted_lookup_lt _ Hs 0 (S k) _ _ Ht Hk). lia.
Qed.

Lemma X17_next_follows_timestamp_order_witness :
  exists a', next 100 (set_currentTime_ 18 Examples.radar) = Ok tt a' /\
    currentTime_ a' ∈ times_ (set_currentTime_ 18 Examples.radar) /\
    ((exists x, x ∈ times_ (set_currentTime_ 18 Examples.radar) /\ 20 < x) ->
     20 < currentTime_ a' /\
     forall x, x ∈ times_ (set_currentTime_ 18 Examples.radar) -> 20 < x ->
               currentTime_ a' <= x) /\
    ((forall x, x ∈ times_ (set_currentTime_ 18 Examples.radar) -> x <= 20) ->
     forall x, x ∈ times_ (set_currentTime_ 18 Examples.radar) -> currentTime_ a' <= x).
Proof.
  apply (X17_next_follows_timestamp_order 100 (set_currentTime_ 18 Examples.radar) 20).
  - apply radar_timeline_loaded.
  - intros Hin. repeat (apply elem_of_cons in Hin as [Hin|Hin]; [discriminate|]).
    by apply elem_of_nil in Hin.
  - reflexivity.
Defined.

(** X18: [previous()] follows the order of the timestamps backwards.  On
    a loaded timeline with no timestamp 0, from a current frame that is
    not the earliest it moves the current time to the greatest timestamp
    before the current frame's, and from the earliest frame to the latest
    timestamp of the timeline. *)
Theorem X18_previous_follows_timestamp_order now a c :
  timeline_loaded a -> 0 ∉ times_ a ->
  getClosestTime_ now (currentTime_ a) a = Some c ->
  exists a', previous now a = Ok tt a' /\ currentTime_ a' ∈ times_ a /\
    ((exists x, x ∈ times_ a /\ x < c) ->
     currentTime_ a' < c /\
     forall x, x ∈ times_ a -> x < c -> x <= currentTime_ a') /\
    ((forall x, x ∈ times_ a -> c <= x) ->
     forall x, x ∈ times_ a -> x <= currentTime_ a').
Proof.
  intros Hwf Hz Hc.
  assert (c ∈ times_ a) as Hin by (by apply getClosestTime__Some in Hc as (? & _)).
  apply list_elem_of_lookup in Hin as [i Hi].
  pose proof (lookup_lt_Some _ _ _ Hi) as Hlt.
  pose proof (timeline_loaded_sorted a Hwf) as Hs.
  destruct (previous_step now a c i Hwf Hz Hc Hi) as (a' & Hn & Ht & _ & _).
  exists a'. split; [done|]. split; [by apply list_elem_of_lookup_2 in Ht|]. split.
  - intros (x & Hx & Hxc). apply list_elem_of_lookup in Hx as [j Hj].
    pose proof (sorted_lookup_index _ _ _ _ _ Hs Hj Hi Hxc) as Hji.
    replace (i + length (times_ a) - 1)%nat
      with (i - 1 + 1 * length (times_ a))%nat in Ht by lia.
    rewrite Nat.Div0.mod_add, Nat.mod_small in Ht by lia. split.
    + apply (sorted_lookup_lt _ Hs (i - 1) i); [done..|lia].
    + intros y Hy Hyc. apply list_elem_of_lookup in Hy as [k Hk].
      pose proof (sorted_lookup_index _ _ _ _ _ Hs Hk Hi Hyc) as Hki.
      destruct (decide (k = i - 1)%nat) as [->|Hne].
      * rewrite Ht in Hk. injection Hk as ->. lia.
      * pose proof (sorted_lookup_lt _ Hs k (i - 1) _ _ Hk Ht). lia.
  - intros Hmin x Hx. apply list_elem_of_lookup in Hx as [k Hk].
    pose proof (lookup_lt_Some _ _ _ Hk) as Hklt.
    assert (i = 0)%nat as ->.
    { destruct i as [|i]; [done|].
      destruct (lookup_lt_is_Some_2 (times_ a) 0) as [y Hy]; [lia|].
      pose proof (sorted_lookup_lt _ Hs 0 (S i) _ _ Hy Hi).
      pose proof (Hmin y ltac:(by apply list_elem_of_lookup_2 in Hy)). lia. }
    rewrite Nat.add_0_l, Nat.mod_small in Ht by lia.
    destruct (decide (k = length (times_ a) - 1)%nat) as [->|Hne].
    + rewrite Ht in Hk. injection Hk as ->. lia.
    + pose proof (sorted_lookup_lt _ Hs k (length (times_ a) - 1) _ _ Hk Ht). lia.
Qed.

Lemma X18_previous_follows_timestamp_order_witness :
  exists a', previous 100 (set_currentTime_ 18 Examples.radar) = Ok tt a' /\
    currentTime_ a' ∈ times_ (set_currentTime_ 18 Examples.radar) /\
    ((exists x, x ∈ times_ (set_currentTime_ 18 Examples.radar) /\ x < 20) ->
     currentTime_ a' < 20 /\
     forall x, x ∈ times_ (set_currentTime_ 18 Examples.radar) -> x < 20 ->
               x <= currentTime_ a') /\
    ((forall x, x ∈ times_ (set_currentTime_ 18 Examples.radar) -> 20 <= x) ->
     forall x, x ∈ times_ (set_currentTime_ 18 Examples.radar) -> x <= currentTime_ a').
Proof.
  apply (X18_previous_follows_timestamp_order 100 (set_currentTime_ 18 Examples.radar) 20).
  - apply radar_timeline_loaded.
  - intros Hin. repeat (apply elem_of_cons in Hin as [Hin|Hin]; [discriminate|]).
    by apply elem_of_nil in Hin.
  - reflexivity.
Defined.

End PlaybackSpec.

(** * Properties of the URI serializer *)

Module AerisAPISpec.
Import Json AerisAPI QueryString.
Local Open Scope string_scope.















End AerisAPISpec.

(** * Properties of the animation coordinator *)

Module AnimationSyncSpec.
Import Js Playback Coordination.

Lemma goToTime_ready now shared a :
  ready now shared a ->
  exists a', TileAnimation.goToTime now (VNumber shared) a = TileAnimation.Ok tt a' /\
             shows now shared a a'.
Proof.
  intros [Hempty|(c & l & Hc & Hl & [L HL])].
  - eexists. split; [by apply PlaybackSpec.goToTime_before_load|].
    unfold shows. rewrite Hempty. by repeat split.
  - assert (c ∈ TileAnimation.times_ a) as Hin
      by (by apply TileAnimationSpec.getClosestTime__Some in Hc as (? & _)).
    destruct (TileAnimation.layer_isLoaded L) eqn:Hloaded.
    + eexists. split; [by apply (PlaybackSpec.goToTime_loaded_frame now shared a c l L)|].
      split; [done|]. split; [done|]. split; [done|].
      destruct (TileAnimation.times_ a) as [|t0 ts] eqn:E;
        [by apply elem_of_nil in Hin|].
      exists c, l, L. split; [done|].
      split; [done|]. split; [done|]. rewrite Hloaded. split.
      * intros l' L' Hf Hne.
        by apply (PlaybackSpec.transitioned_others_hidden now l
                    (TileAnimation.set_currentTime_ shared a)).
      * cbn [TileAnimation.layers TileAnimation.set_triggered].
        rewrite (PlaybackSpec.goToTime_frame_layer now shared a c l L Hc Hl HL).
        eexists. split; [done|]. split; intros Ht.
        -- rewrite (proj2 (Z.ltb_lt _ _) Ht). by repeat split.
        -- rewrite (proj2 (Z.ltb_ge _ _) Ht). by split.
    + eexists. split; [by apply (PlaybackSpec.goToTime_loading_frame now shared a c l L)|].
      destruct (PlaybackSpec.awaiting_fields (TileAnimation.getCurrentLayer now a) l
                  (TileAnimation.set_currentTime_ shared a))
        as (Hf1 & Hf2 & Hf3 & _).
      split; [exact Hf1|]. split; [exact Hf2|]. split; [exact Hf3|].
      destruct (TileAnimation.times_ a) as [|t0 ts] eqn:E;
        [by apply elem_of_nil in Hin|].
      exists c, l, L. split; [done|].
      split; [done|]. split; [done|]. rewrite Hloaded. split.
      * apply (TileAnimationSpec.awaiting_layers (TileAnimation.getCurrentLayer now a) l
                 (TileAnimation.set_currentTime_ shared a)).
      * apply (TileAnimationSpec.awaiting_listener (TileAnimation.getCurrentLayer now a) l
                 (TileAnimation.set_currentTime_ shared a)).
Qed.

Lemma invoke_goToTime_ready now shared animations :
  Forall (ready now shared) animations ->
  exists animations',
    AnimationSync.invoke_goToTime now (VNumber shared) animations = (animations', None) /\
    Forall2 (shows now shared) animations animations'.
Proof.
  induction 1 as [|a rest Ha _ (rest' & Hrest & Hshows)]; [by exists []|].
  destruct (goToTime_ready now shared a Ha) as (a' & Hgo & Hshow).
  exists (a' :: rest'). simpl. rewrite Hgo, Hrest. by split; [|constructor].
Qed.

Lemma goToTime_number_ready now shared this :
  Forall (ready now shared) (AnimationSync.animations_ this) ->
  exists animations',
    AnimationSync.goToTime now (VNumber shared) this
    = AnimationSync.Ok (AnimationSync.mk animations' shared) /\
    Forall2 (shows now shared) (AnimationSync.animations_ this) animations'.
Proof.
  intros (animations' & Hinvoke & Hshows)%invoke_goToTime_ready.
  exists animations'. split; [|done].
  unfold AnimationSync.goToTime. cbn [isDate numberOf]. by rewrite Hinvoke.
Qed.

(** C8, as stated, fails.  With radar frames at 10, 20, 30, satellite
    frames at 15, 45 and the clock at 100, a step forward by 140 sends the
    animations to 150: the radar has no frame in the tense of that time,
    its [goToTime] throws, and the satellite is left at 15.  A step that
    returns may also leave a frame undisplayed: one step forward by 10
    with the radar frame of 20 still loading leaves the radar showing its
    frame of 10, the frame of 20 untouched. *)
Lemma C8_all_animations_display_shared_frame_counterexample :
  (exists s,
     AnimationSync.step 100 (AnimationSync.Next 140) Examples.weather
     = AnimationSync.Throw TileAnimation.TypeError s /\
     AnimationSync.currentTime_ s = 150 /\
     map TileAnimation.currentTime_ (AnimationSync.animations_ s) = [150; 15]) /\
  (exists s a b,
     AnimationSync.step 100 (AnimationSync.Next 10)
       (AnimationSync.mk [Examples.radar_loading; Examples.satellite] 10)
     = AnimationSync.Ok s /\
     AnimationSync.currentTime_ s = 20 /\
     AnimationSync.animations_ s = [a; b] /\
     TileAnimation.getClosestTime_ 100 20 a = Some 20 /\
     TileAnimation.timeLayers_ a !! 20 = Some 2%positive /\
     TileAnimation.layers a !! 2%positive = Some Examples.loading /\
     TileAnimation.layers a !! 1%positive = Some Examples.shown) /\
  ~ (forall now op this shared,
       target op this = Some shared ->
       Forall (displays now shared)
              (AnimationSync.animations_ (AnimationSync.state_of (AnimationSync.step now op this)))).
Proof.
  split; [eexists; split; [reflexivity|]; split; reflexivity|].
  split; [do 3 eexists; split; [reflexivity|]; repeat split; reflexivity|].
  intros H.
  specialize (H 100 (AnimationSync.Next 140) Examples.weather 150 eq_refl).
  apply Forall_cons in H as [_ H]. apply Forall_cons in H as [[H _] _].
  vm_compute in H. discriminate H.
Qed.

(** C8, amended: at every step of the coordinator to a time for which
    every animation has a frame in its tense, or has no times yet, the step
    returns, the time is the shared current time and the current time of
    every animation, and every animation shows its frame for it as far as
    it can.  A frame that is loaded follows the master layer when it is
    within the time tolerance and is hidden when it is not, and every
    other frame of the animation is hidden; a frame that is still loading
    leaves the layers as they are, with one listener for its 'load'; an
    animation without times waits for them. *)
Theorem C8_ready_animations_show_shared_time now op this shared :
  target op this = Some shared ->
  Forall (ready now shared) (AnimationSync.animations_ this) ->
  exists s,
    AnimationSync.step now op this = AnimationSync.Ok s /\
    AnimationSync.currentTime_ s = shared /\
    Forall2 (shows now shared) (AnimationSync.animations_ this) (AnimationSync.animations_ s).
Proof.
  intros Htarget Hready.
  destruct op as [time|timestep|timestep]; simpl in Htarget.
  - destruct (invoke_goToTime_ready now shared _ Hready) as (animations' & Hinvoke & Hshows).
    exists (AnimationSync.mk animations' shared). split; [|by split].
    unfold AnimationSync.step, AnimationSync.goToTime. by rewrite Htarget, Hinvoke.
  - injection Htarget as <-.
    destruct (goToTime_number_ready now _ this Hready) as (animations' & Hgo & Hshows).
    by exists (AnimationSync.mk animations' (AnimationSync.currentTime_ this + timestep)).
  - injection Htarget as <-.
    destruct (goToTime_number_ready now _ this Hready) as (animations' & Hgo & Hshows).
    by exists (AnimationSync.mk animations' (AnimationSync.currentTime_ this - timestep)).
Qed.

Lemma C8_ready_animations_show_shared_time_witness :
  exists s,
    AnimationSync.step 100 (AnimationSync.Next 8) Examples.weather = AnimationSync.Ok s /\
    AnimationSync.currentTime_ s = 18 /\
    Forall2 (shows 100 18) (AnimationSync.animations_ Examples.weather)
            (AnimationSync.animations_ s).
Proof.
  apply (C8_ready_animations_show_shared_time 100 (AnimationSync.Next 8) Examples.weather 18).
  - reflexivity.
  - apply Forall_cons. split; [|apply Forall_cons; split; [|constructor]].
    + right. exists 20, 2%positive.
      split; [reflexivity|]. split; [reflexivity|]. eexists. reflexivity.
    + right. exists 15, 1%positive.
      split; [reflexivity|]. split; [reflexivity|]. eexists. reflexivity.
Defined.

End AnimationSyncSpec.
